(** * knative.dev/pkg: Stackdriver monitored-resource dispatch and duck-type
      validation, embedded from the Go sources.

    Go strings are byte strings: [String.string].  [sets.String] is a
    [gset string], a Go [map[string]string] a [gmap string string], a slice a
    [list], a nilable pointer an [option]. *)

From Stdlib Require Import ZArith Ascii String List Bool Permutation.
From Stdlib Require Import DecimalString.
From stdpp Require Import base decidable gmap strings list fin_maps fin_sets.

Local Open Scope string_scope.
Local Open Scope list_scope.

(* ===================================================================== *)
(** ** Go standard library: [path.Clean] and [path.Join]                  *)
(* ===================================================================== *)

Module path.

Definition slash : ascii := "/"%char.
Definition dot : ascii := "."%char.

Definition is_slash (c : ascii) : bool := Ascii.eqb c slash.
Definition is_dot (c : ascii) : bool := Ascii.eqb c dot.

(** [r+k == n || path[r+k] == '/'] on the unread part of the input. *)
Definition at_end_or_slash (rest : list ascii) : bool :=
  match rest with
  | [] => true
  | c :: _ => is_slash c
  end.

(** The inner loop of the [..] case,
    [for out.w > dotdot && out.index(out.w) != '/' { out.w-- }],
    on the write index [w] of the buffer [out]. *)
Fixpoint backtrack (out : list ascii) (dotdot w : nat) : nat :=
  match w with
  | O => O
  | S w' =>
      if (dotdot <? w)%nat && negb (is_slash (nth w out slash))
      then backtrack out dotdot w'
      else w
  end.

(** The main loop of [Clean].  [out] is the lazybuf truncated to its write
    index [out.w]; [copying] is true while the loop that copies one real
    path element is running. *)
Fixpoint clean_loop (rooted : bool) (rest : list ascii) (copying : bool)
         (out : list ascii) (dotdot : nat) : list ascii :=
  match rest with
  | [] => out
  | c :: rest1 =>
      if copying then
        if is_slash c
        then clean_loop rooted rest1 false out dotdot
        else clean_loop rooted rest1 true (out ++ [c]) dotdot
      else if is_slash c then
        (* empty path element *)
        clean_loop rooted rest1 false out dotdot
      else if is_dot c && at_end_or_slash rest1 then
        (* . element *)
        clean_loop rooted rest1 false out dotdot
      else
        let real_element :=
          let out1 :=
            if (rooted && negb (length out =? 1)%nat)
               || (negb rooted && negb (length out =? 0)%nat)
            then out ++ [slash] else out in
          clean_loop rooted rest1 true (out1 ++ [c]) dotdot in
        match rest1 with
        | c2 :: rest2 =>
            if is_dot c && is_dot c2 && at_end_or_slash rest2 then
              (* .. element: remove to last / *)
              if (dotdot <? length out)%nat then
                let w := backtrack out dotdot (length out - 1) in
                clean_loop rooted rest2 false (firstn w out) dotdot
              else if negb rooted then
                let out1 :=
                  if (0 <? length out)%nat then out ++ [slash] else out in
                let out2 := out1 ++ [dot; dot] in
                clean_loop rooted rest2 false out2 (length out2)
              else clean_loop rooted rest2 false out dotdot
            else real_element
        | [] => real_element
        end
  end.

Definition Clean (p : string) : string :=
  match list_ascii_of_string p with
  | [] => "."
  | (c :: _) as bytes =>
      let rooted := is_slash c in
      let out :=
        if rooted then clean_loop true bytes false [slash] 1
        else clean_loop false bytes false [] 0 in
      match out with
      | [] => "."
      | _ => string_of_list_ascii out
      end
  end.

(** The loop of [Join] that appends the non-empty elements to [buf],
    separated by slashes. *)
Fixpoint join_buf (buf : string) (elem : list string) : string :=
  match elem with
  | [] => buf
  | e :: elem' =>
      if (0 <? String.length buf)%nat || negb (String.eqb e "") then
        join_buf
          ((if (0 <? String.length buf)%nat then buf +:+ "/" else buf) +:+ e)
          elem'
      else join_buf buf elem'
  end.

Definition Join (elem : list string) : string :=
  let size := fold_left (fun n e => (n + String.length e)%nat) elem O in
  if (size =? 0)%nat then "" else Clean (join_buf "" elem).

End path.

(* ===================================================================== *)
(** ** k8s.io/apimachinery/pkg/util/sets                                  *)
(* ===================================================================== *)

Module sets.

(** [sets.NewString(items...)]. *)
Definition NewString (items : list string) : gset string :=
  list_to_set items.

(** [s.Has(item)]. *)
Definition Has (s : gset string) (item : string) : bool :=
  bool_decide (item ∈ s).

End sets.

(* ===================================================================== *)
(** ** go.opencensus.io: the parts of tags and views the code reads       *)
(* ===================================================================== *)

Module tag.

Module Key.
Record t : Type := mk { Name : string }.
End Key.

Record Tag : Type := mkTag { Key : Key.t; Value : string }.

End tag.

Module view.

Module Measure.
Record t : Type := mk { Name : string }.
End Measure.

Record View : Type := mkView { Description : string; Measure : Measure.t }.

End view.

(* ===================================================================== *)
(** ** Package metricskey                                                 *)
(* ===================================================================== *)

Module metricskey.

(** The constants of package [metricskey] are not among the sources.  The
    label keys are the names that the Stackdriver resource types
    knative_revision, knative_broker, knative_trigger and knative_importer
    give to the labels of the dispatch table, and the default value is the
    string the table gives for an absent tag. *)

(** Modelled from the spec: [metricskey.LabelProject], the project label of
    the dispatch table; the resource types name it project_id. *)
Definition LabelProject : string := "project_id".

(** Modelled from the spec: [metricskey.LabelLocation], the location
    label. *)
Definition LabelLocation : string := "location".

(** Modelled from the spec: [metricskey.LabelClusterName], the cluster
    label. *)
Definition LabelClusterName : string := "cluster_name".

(** Modelled from the spec: [metricskey.LabelNamespaceName], the namespace
    label. *)
Definition LabelNamespaceName : string := "namespace_name".

(** Modelled from the spec: [metricskey.ValueUnknown], the value of a label
    whose tag is absent. *)
Definition ValueUnknown : string := "unknown".

End metricskey.

(* ===================================================================== *)
(** ** Package metricskey/eventing                                        *)
(* ===================================================================== *)

Module metricskeyeventing.

Definition ResourceTypeKnativeTrigger : string := "knative_trigger".
Definition ResourceTypeKnativeBroker : string := "knative_broker".
Definition ResourceTypeKnativeImporter : string := "knative_importer".

Definition LabelTriggerName : string := "trigger_name".
Definition LabelBrokerName : string := "broker_name".
Definition LabelImporterName : string := "importer_name".
Definition LabelImporterKind : string := "importer_kind".

(** Modelled from the spec: [LabelTriggerTypeFilterAttribute] is used by
    [KnativeTrigger.MonitoredResource] and
    [GetKnativeTriggerMonitoredResource] but declared nowhere in the
    sources; it is the type-filter key of the dispatch table,
    trigger_filter_type. *)
Definition LabelTriggerTypeFilterAttribute : string := "trigger_filter_type".

(** Modelled from the spec: [LabelTriggerSourceFilterAttribute], used and
    missing in the same way; it is the source-filter key of the dispatch
    table, trigger_filter_source. *)
Definition LabelTriggerSourceFilterAttribute : string :=
  "trigger_filter_source".

Definition KnativeTriggerLabels : gset string :=
  sets.NewString
    [ metricskey.LabelProject;
      metricskey.LabelLocation;
      metricskey.LabelClusterName;
      metricskey.LabelNamespaceName;
      LabelTriggerName;
      LabelBrokerName ].

Definition KnativeTriggerMetrics : gset string :=
  sets.NewString
    [ "knative.dev/eventing/trigger/event_count";
      "knative.dev/eventing/trigger/event_process_latencies";
      "knative.dev/eventing/trigger/event_dispatch_latencies" ].

Definition KnativeBrokerLabels : gset string :=
  sets.NewString
    [ metricskey.LabelProject;
      metricskey.LabelLocation;
      metricskey.LabelClusterName;
      metricskey.LabelNamespaceName;
      LabelBrokerName ].

Definition KnativeBrokerMetrics : gset string :=
  sets.NewString [ "knative.dev/eventing/broker/event_count" ].

Definition KnativeImporterLabels : gset string :=
  sets.NewString
    [ metricskey.LabelProject;
      metricskey.LabelLocation;
      metricskey.LabelClusterName;
      metricskey.LabelNamespaceName;
      LabelImporterName;
      LabelImporterKind ].

Definition KnativeImporterMetrics : gset string :=
  sets.NewString [ "knative.dev/eventing/importer/event_count" ].

End metricskeyeventing.

(* ===================================================================== *)
(** ** Package metricskey/serving                                         *)
(* ===================================================================== *)

(** Package [metricskey/serving] is not among the sources: its label names
    and its two string sets are parameters of the development. *)
Class MetricsKeyServing : Type := {
  LabelServiceName : string;
  LabelConfigurationName : string;
  LabelRevisionName : string;
  KnativeRevisionLabels : gset string;
  KnativeRevisionMetrics : gset string
}.

(* ===================================================================== *)
(** ** Package monitoredresources                                         *)
(* ===================================================================== *)

Module monitoredresources.

(** Modelled from the spec: [GcpMetadata] is not among the sources; it is
    the environment/platform metadata, with the three fields the
    [Get...MonitoredResource] functions read. *)
Record GcpMetadata : Type := mkGcpMetadata {
  Project : string;
  Location : string;
  Cluster : string
}.

(** Modelled from the spec: [Global] is not among the sources; the tests
    build it as the empty struct [&monitoredresources.Global{}]. *)
Record Global : Type := mkGlobal { }.

(** Modelled from the spec: [GetTagsMap] is not among the sources; it
    turns the metric's tag set into a map from tag key name to tag
    value. *)
Definition GetTagsMap (tags : list tag.Tag) : gmap string string :=
  fold_left
    (fun tagsMap t => <[tag.Key.Name (tag.Key t) := tag.Value t]> tagsMap)
    tags ∅.

(** Modelled from the spec: [ValueOrUnknown] is not among the sources; a
    label comes from the metric's tag set, defaulting to "unknown" if
    absent. *)
Definition ValueOrUnknown (key : string) (tagsMap : gmap string string)
  : string :=
  match tagsMap !! key with
  | Some value => value
  | None => metricskey.ValueUnknown
  end.

End monitoredresources.

(** The loop shared by the four [Get...MonitoredResource] functions:
    [for _, t := range tags { if !labels.Has(t.Key.Name()) { newTags =
    append(newTags, t) } }]. *)
Fixpoint keepNonResourceTags (labels : gset string) (tags : list tag.Tag)
  : list tag.Tag :=
  match tags with
  | [] => []
  | t :: tags' =>
      if negb (sets.Has labels (tag.Key.Name (tag.Key t)))
      then t :: keepNonResourceTags labels tags'
      else keepNonResourceTags labels tags'
  end.

(* ===================================================================== *)
(** ** monitoredresource.Interface and the resource structs               *)
(* ===================================================================== *)

(** [monitoredresource.Interface]: the one method [MonitoredResource()]. *)
Class MonitoredResourceInterface (A : Type) : Type :=
  MonitoredResource : A -> string * gmap string string.

Module KnativeTrigger.
Record t : Type := mk {
  Project : string;
  Location : string;
  ClusterName : string;
  NamespaceName : string;
  TriggerName : string;
  BrokerName : string;
  TypeFilterAttribute : string;
  SourceFilterAttribute : string
}.
End KnativeTrigger.

Module KnativeBroker.
Record t : Type := mk {
  Project : string;
  Location : string;
  ClusterName : string;
  NamespaceName : string;
  BrokerName : string
}.
End KnativeBroker.

Module KnativeImporter.
Record t : Type := mk {
  Project : string;
  Location : string;
  ClusterName : string;
  NamespaceName : string;
  ImporterName : string;
  ImporterKind : string
}.
End KnativeImporter.

Module KnativeRevision.
Record t : Type := mk {
  Project : string;
  Location : string;
  ClusterName : string;
  NamespaceName : string;
  ServiceName : string;
  ConfigurationName : string;
  RevisionName : string
}.
End KnativeRevision.

#[export] Instance KnativeTrigger_MonitoredResource
  : MonitoredResourceInterface KnativeTrigger.t := fun kt =>
  ( "knative_trigger",
    <[ metricskey.LabelProject := KnativeTrigger.Project kt ]>
    (<[ metricskey.LabelLocation := KnativeTrigger.Location kt ]>
    (<[ metricskey.LabelClusterName := KnativeTrigger.ClusterName kt ]>
    (<[ metricskey.LabelNamespaceName := KnativeTrigger.NamespaceName kt ]>
    (<[ metricskeyeventing.LabelTriggerName := KnativeTrigger.TriggerName kt ]>
    (<[ metricskeyeventing.LabelBrokerName := KnativeTrigger.BrokerName kt ]>
    (<[ metricskeyeventing.LabelTriggerTypeFilterAttribute :=
          KnativeTrigger.TypeFilterAttribute kt ]>
    (<[ metricskeyeventing.LabelTriggerSourceFilterAttribute :=
          KnativeTrigger.SourceFilterAttribute kt ]> ∅))))))) ).

#[export] Instance KnativeBroker_MonitoredResource
  : MonitoredResourceInterface KnativeBroker.t := fun kb =>
  ( "knative_broker",
    <[ metricskey.LabelProject := KnativeBroker.Project kb ]>
    (<[ metricskey.LabelLocation := KnativeBroker.Location kb ]>
    (<[ metricskey.LabelClusterName := KnativeBroker.ClusterName kb ]>
    (<[ metricskey.LabelNamespaceName := KnativeBroker.NamespaceName kb ]>
    (<[ metricskeyeventing.LabelBrokerName := KnativeBroker.BrokerName kb ]>
       ∅)))) ).

#[export] Instance KnativeImporter_MonitoredResource
  : MonitoredResourceInterface KnativeImporter.t := fun ki =>
  ( "knative_importer",
    <[ metricskey.LabelProject := KnativeImporter.Project ki ]>
    (<[ metricskey.LabelLocation := KnativeImporter.Location ki ]>
    (<[ metricskey.LabelClusterName := KnativeImporter.ClusterName ki ]>
    (<[ metricskey.LabelNamespaceName := KnativeImporter.NamespaceName ki ]>
    (<[ metricskeyeventing.LabelImporterName :=
          KnativeImporter.ImporterName ki ]>
    (<[ metricskeyeventing.LabelImporterKind :=
          KnativeImporter.ImporterKind ki ]> ∅))))) ).

#[export] Instance KnativeRevision_MonitoredResource `{MetricsKeyServing}
  : MonitoredResourceInterface KnativeRevision.t := fun kr =>
  ( "knative_revision",
    <[ metricskey.LabelProject := KnativeRevision.Project kr ]>
    (<[ metricskey.LabelLocation := KnativeRevision.Location kr ]>
    (<[ metricskey.LabelClusterName := KnativeRevision.ClusterName kr ]>
    (<[ metricskey.LabelNamespaceName := KnativeRevision.NamespaceName kr ]>
    (<[ LabelServiceName := KnativeRevision.ServiceName kr ]>
    (<[ LabelConfigurationName := KnativeRevision.ConfigurationName kr ]>
    (<[ LabelRevisionName := KnativeRevision.RevisionName kr ]> ∅)))))) ).

(** Modelled from the spec: the method [MonitoredResource] of
    [monitoredresources.Global] is not among the sources; the last row of
    the dispatch table gives resource type [global] and no labels. *)
#[export] Instance Global_MonitoredResource
  : MonitoredResourceInterface monitoredresources.Global := fun _ =>
  ("global", ∅).

(** A value of interface type [monitoredresource.Interface]: one of the
    five dynamic types the dispatch can return. *)
Inductive Interface : Type :=
| OfKnativeRevision (kr : KnativeRevision.t)
| OfKnativeBroker (kb : KnativeBroker.t)
| OfKnativeTrigger (kt : KnativeTrigger.t)
| OfKnativeImporter (ki : KnativeImporter.t)
| OfGlobal (g : monitoredresources.Global).

#[export] Instance Interface_MonitoredResource `{MetricsKeyServing}
  : MonitoredResourceInterface Interface := fun i =>
  match i with
  | OfKnativeRevision kr => MonitoredResource kr
  | OfKnativeBroker kb => MonitoredResource kb
  | OfKnativeTrigger kt => MonitoredResource kt
  | OfKnativeImporter ki => MonitoredResource ki
  | OfGlobal g => MonitoredResource g
  end.

(* ===================================================================== *)
(** ** Packages monitoredresources/eventing, monitoredresources/serving   *)
(**    and metrics (stackdriver_exporter.go)                              *)
(* ===================================================================== *)

Section Dispatch.

Context `{MetricsKeyServing}.

Import monitoredresources.

Definition GetKnativeBrokerMonitoredResource
  (v : view.View) (tags : list tag.Tag) (gm : GcpMetadata)
  : list tag.Tag * Interface :=
  let tagsMap := GetTagsMap tags in
  let kb := {|
    KnativeBroker.Project := Project gm;
    KnativeBroker.Location := Location gm;
    KnativeBroker.ClusterName := Cluster gm;
    KnativeBroker.NamespaceName :=
      ValueOrUnknown metricskey.LabelNamespaceName tagsMap;
    KnativeBroker.BrokerName :=
      ValueOrUnknown metricskeyeventing.LabelBrokerName tagsMap
  |} in
  let newTags :=
    keepNonResourceTags metricskeyeventing.KnativeBrokerLabels tags in
  (newTags, OfKnativeBroker kb).

Definition GetKnativeTriggerMonitoredResource
  (v : view.View) (tags : list tag.Tag) (gm : GcpMetadata)
  : list tag.Tag * Interface :=
  let tagsMap := GetTagsMap tags in
  let kt := {|
    KnativeTrigger.Project := Project gm;
    KnativeTrigger.Location := Location gm;
    KnativeTrigger.ClusterName := Cluster gm;
    KnativeTrigger.NamespaceName :=
      ValueOrUnknown metricskey.LabelNamespaceName tagsMap;
    KnativeTrigger.TriggerName :=
      ValueOrUnknown metricskeyeventing.LabelTriggerName tagsMap;
    KnativeTrigger.BrokerName :=
      ValueOrUnknown metricskeyeventing.LabelBrokerName tagsMap;
    KnativeTrigger.TypeFilterAttribute :=
      ValueOrUnknown metricskeyeventing.LabelTriggerTypeFilterAttribute
                     tagsMap;
    KnativeTrigger.SourceFilterAttribute :=
      ValueOrUnknown metricskeyeventing.LabelTriggerSourceFilterAttribute
                     tagsMap
  |} in
  let newTags :=
    keepNonResourceTags metricskeyeventing.KnativeTriggerLabels tags in
  (newTags, OfKnativeTrigger kt).

Definition GetKnativeImporterMonitoredResource
  (v : view.View) (tags : list tag.Tag) (gm : GcpMetadata)
  : list tag.Tag * Interface :=
  let tagsMap := GetTagsMap tags in
  let ki := {|
    KnativeImporter.Project := Project gm;
    KnativeImporter.Location := Location gm;
    KnativeImporter.ClusterName := Cluster gm;
    KnativeImporter.NamespaceName :=
      ValueOrUnknown metricskey.LabelNamespaceName tagsMap;
    KnativeImporter.ImporterName :=
      ValueOrUnknown metricskeyeventing.LabelImporterName tagsMap;
    KnativeImporter.ImporterKind :=
      ValueOrUnknown metricskeyeventing.LabelImporterKind tagsMap
  |} in
  let newTags :=
    keepNonResourceTags metricskeyeventing.KnativeImporterLabels tags in
  (newTags, OfKnativeImporter ki).

Definition GetKnativeRevisionMonitoredResource
  (v : view.View) (tags : list tag.Tag) (gm : GcpMetadata)
  : list tag.Tag * Interface :=
  let tagsMap := GetTagsMap tags in
  let kr := {|
    KnativeRevision.Project := Project gm;
    KnativeRevision.Location := Location gm;
    KnativeRevision.ClusterName := Cluster gm;
    KnativeRevision.NamespaceName :=
      ValueOrUnknown metricskey.LabelNamespaceName tagsMap;
    KnativeRevision.ServiceName := ValueOrUnknown LabelServiceName tagsMap;
    KnativeRevision.ConfigurationName :=
      ValueOrUnknown LabelConfigurationName tagsMap;
    KnativeRevision.RevisionName := ValueOrUnknown LabelRevisionName tagsMap
  |} in
  let newTags := keepNonResourceTags KnativeRevisionLabels tags in
  (newTags, OfKnativeRevision kr).

Definition getGlobalMonitoredResource (v : view.View) (tags : list tag.Tag)
  : list tag.Tag * Interface :=
  (tags, OfGlobal mkGlobal).

(** [metricType := path.Join(metricTypePrefix, view.Measure.Name())]. *)
Definition joinedMetricType (metricTypePrefix : string) (v : view.View)
  : string :=
  path.Join [metricTypePrefix; view.Measure.Name (view.Measure v)].

Definition getMonitoredResourceFunc
  (metricTypePrefix : string) (gm : GcpMetadata)
  : view.View -> list tag.Tag -> list tag.Tag * Interface :=
  fun view tags =>
    let metricType := joinedMetricType metricTypePrefix view in
    if sets.Has KnativeRevisionMetrics metricType then
      GetKnativeRevisionMonitoredResource view tags gm
    else if sets.Has metricskeyeventing.KnativeBrokerMetrics metricType then
      GetKnativeBrokerMonitoredResource view tags gm
    else if sets.Has metricskeyeventing.KnativeTriggerMetrics metricType then
      GetKnativeTriggerMonitoredResource view tags gm
    else if sets.Has metricskeyeventing.KnativeImporterMetrics metricType
    then
      GetKnativeTriggerMonitoredResource view tags gm
    else
      getGlobalMonitoredResource view tags.

Definition getMetricTypeFunc (metricTypePrefix customMetricTypePrefix : string)
  : view.View -> string :=
  fun view =>
    let metricType := joinedMetricType metricTypePrefix view in
    let inServing := sets.Has KnativeRevisionMetrics metricType in
    let inEventing :=
      sets.Has metricskeyeventing.KnativeBrokerMetrics metricType
      || sets.Has metricskeyeventing.KnativeTriggerMetrics metricType
      || sets.Has metricskeyeventing.KnativeImporterMetrics metricType in
    if inServing || inEventing then metricType
    else path.Join [customMetricTypePrefix;
                    view.Measure.Name (view.Measure view)].

End Dispatch.

(* ===================================================================== *)
(** ** k8s.io/api/core/v1                                                 *)
(* ===================================================================== *)

Module corev1.

(** [corev1.ObjectReference], fields in declaration order. *)
Record ObjectReference : Type := mkObjectReference {
  Kind : string;
  Namespace : string;
  Name : string;
  UID : string;
  APIVersion : string;
  ResourceVersion : string;
  FieldPath : string
}.

Definition ConditionStatus : Type := string.
Definition ConditionTrue : ConditionStatus := "True".
Definition ConditionFalse : ConditionStatus := "False".
Definition ConditionUnknown : ConditionStatus := "Unknown".

End corev1.

(* ===================================================================== *)
(** ** Go standard library: the parts of [fmt] and [math] the code uses   *)
(* ===================================================================== *)

Module fmt.

(** [%d] and [%v] of an integer: its decimal digits, with a minus sign when
    it is negative. *)
Definition Sprint_int (i : Z) : string := NilEmpty.string_of_int (Z.to_int i).

End fmt.

Module math.

Definition MaxInt32 : Z := 2147483647.

End math.

(* ===================================================================== *)
(** ** Package apis                                                       *)
(* ===================================================================== *)

Module apis.

(** [apis.URL] is [net/url.URL]; [IsAbs] reports a non-empty scheme. *)
Record URL : Type := mkURL {
  Scheme : string;
  Host : string;
  Path : string;
  RawQuery : string
}.

Definition IsAbs (u : URL) : bool := negb (String.eqb (Scheme u) "").

(** Modelled from the spec: package [apis] is not among the sources.  A
    [FieldError] is the structured field error of the validation
    functions: a message, the field paths it is about, details, and the
    errors merged into it. *)
#[warnings="-register-all"]
Inductive FieldError : Type :=
| mkFieldError (Message : string) (Paths : list string) (Details : string)
               (errors : list FieldError).

(** Modelled from the spec: the four fields of a [FieldError]. *)
Definition Message (fe : FieldError) : string :=
  let 'mkFieldError m _ _ _ := fe in m.

(** Modelled from the spec: see [Message]. *)
Definition Paths (fe : FieldError) : list string :=
  let 'mkFieldError _ p _ _ := fe in p.

(** Modelled from the spec: see [Message]. *)
Definition Details (fe : FieldError) : string :=
  let 'mkFieldError _ _ d _ := fe in d.

(** Modelled from the spec: see [Message]. *)
Definition errors (fe : FieldError) : list FieldError :=
  let 'mkFieldError _ _ _ es := fe in es.

(** Modelled from the spec: [isEmpty] of a [*FieldError]; nil and the
    zero value carry no error. *)
Definition isEmpty (fe : option FieldError) : bool :=
  match fe with
  | None => true
  | Some (mkFieldError m p d es) =>
      String.eqb m "" && String.eqb d ""
      && (length es =? 0)%nat && (length p =? 0)%nat
  end.

(** Modelled from the spec: [fe.Also(e)] merges [e] into [fe]; the result
    is nil when neither carries an error. *)
Definition Also (fe e : option FieldError) : option FieldError :=
  let newErr :=
    match fe with
    | Some f => if isEmpty fe then mkFieldError "" [] "" [] else f
    | None => mkFieldError "" [] "" []
    end in
  let newErr :=
    match e with
    | Some e' =>
        if isEmpty e then newErr
        else mkFieldError (Message newErr) (Paths newErr) (Details newErr)
                          (errors newErr ++ [e'])
    | None => newErr
    end in
  if isEmpty (Some newErr) then None else Some newErr.

(** Modelled from the spec: [ErrGeneric], a field error with the given
    diagnostic about the given paths. *)
Definition ErrGeneric (diagnostic : string) (fieldPaths : list string)
  : option FieldError :=
  Some (mkFieldError diagnostic fieldPaths "" []).

(** Modelled from the spec: [ErrMissingField], the field error of a
    required field that is not set. *)
Definition ErrMissingField (fieldPaths : list string) : option FieldError :=
  Some (mkFieldError "missing field(s)" fieldPaths "" []).

(** Modelled from the spec: [ErrDisallowedFields], the field error of
    fields that must not be set. *)
Definition ErrDisallowedFields (fieldPaths : list string)
  : option FieldError :=
  Some (mkFieldError "must not set the field(s)" fieldPaths "" []).

(** Modelled from the spec: [ErrInvalidValue], the field error of a field
    with a value that is not accepted. *)
Definition ErrInvalidValue (value fieldPath : string) : option FieldError :=
  Some (mkFieldError ("invalid value: " +:+ value) [fieldPath] "" []).

(** Modelled from the spec: [ErrOutOfBoundsValue], the field error of a
    value outside the bounds it is expected in. *)
Definition ErrOutOfBoundsValue (value lower upper : Z) (fieldPath : string)
  : option FieldError :=
  Some (mkFieldError
          ("expected " +:+ fmt.Sprint_int lower +:+ " <= "
           +:+ fmt.Sprint_int value +:+ " <= " +:+ fmt.Sprint_int upper)
          [fieldPath] "" []).

(** Modelled from the spec: the path rewriting of [ViaField], which puts
    the field name in front of every path of the error and of the errors
    merged into it. *)
Fixpoint prefixPaths (prefix : string) (fe : FieldError) : FieldError :=
  match fe with
  | mkFieldError m p d es =>
      mkFieldError m (List.map (fun old => prefix +:+ "." +:+ old) p) d
                   (List.map (prefixPaths prefix) es)
  end.

(** Modelled from the spec: [fe.ViaField(prefix)]; a nil error stays
    nil. *)
Definition ViaField (fe : option FieldError) (prefix : string)
  : option FieldError :=
  match fe with
  | None => None
  | Some f => Some (prefixPaths prefix f)
  end.

(** Modelled from the spec: [apis.ConditionType], a string. *)
Definition ConditionType : Type := string.

(** Modelled from the spec: [apis.ConditionReady], the happy condition of a
    resource that keeps running. *)
Definition ConditionReady : ConditionType := "Ready".

(** Modelled from the spec: [apis.ConditionSucceeded], the happy condition
    of a resource that runs to completion. *)
Definition ConditionSucceeded : ConditionType := "Succeeded".

Module Condition.
(** Modelled from the spec: [apis.Condition], without its transition
    time. *)
Record t : Type := mk {
  Type_ : ConditionType;
  Status : corev1.ConditionStatus;
  Severity : string;
  Reason : string;
  Message : string
}.
End Condition.

(** Modelled from the spec: [c.IsTrue()] holds of a condition whose status
    is True. *)
Definition IsTrue (c : Condition.t) : bool :=
  String.eqb (Condition.Status c) corev1.ConditionTrue.

End apis.

(* ===================================================================== *)
(** ** Package apis/duck/v1alpha1: Destination                            *)
(* ===================================================================== *)

Module v1alpha1.

Record Destination : Type := mkDestination {
  Ref : option corev1.ObjectReference;
  DeprecatedAPIVersion : string;
  DeprecatedKind : string;
  DeprecatedName : string;
  URI : option apis.URL
}.

Definition nonEmpty (s : string) : bool := negb (String.eqb s "").

Definition checkRequiredObjectReferenceFields (f : corev1.ObjectReference)
  : option apis.FieldError :=
  let errs : option apis.FieldError := None in
  let errs :=
    if String.eqb (corev1.Name f) ""
    then apis.Also errs (apis.ErrMissingField ["name"]) else errs in
  let errs :=
    if String.eqb (corev1.APIVersion f) ""
    then apis.Also errs (apis.ErrMissingField ["apiVersion"]) else errs in
  let errs :=
    if String.eqb (corev1.Kind f) ""
    then apis.Also errs (apis.ErrMissingField ["kind"]) else errs in
  errs.

(** [reflect.ValueOf(f)]: the fields of the struct, name and value, in
    declaration order. *)
Definition reflectFields (f : corev1.ObjectReference)
  : list (string * string) :=
  [ ("Kind", corev1.Kind f);
    ("Namespace", corev1.Namespace f);
    ("Name", corev1.Name f);
    ("UID", corev1.UID f);
    ("APIVersion", corev1.APIVersion f);
    ("ResourceVersion", corev1.ResourceVersion f);
    ("FieldPath", corev1.FieldPath f) ].

(** The loop over the fields: the names of the fields, other than Name,
    Kind and APIVersion, that differ from the zero value. *)
Fixpoint disallowedFieldsOf (fields : list (string * string)) : list string :=
  match fields with
  | [] => []
  | (fieldName, field) :: fields' =>
      if String.eqb fieldName "Name" || String.eqb fieldName "Kind"
         || String.eqb fieldName "APIVersion"
      then disallowedFieldsOf fields'
      else if negb (String.eqb field "")
      then fieldName :: disallowedFieldsOf fields'
      else disallowedFieldsOf fields'
  end.

Definition checkDisallowedObjectReferenceFields (f : corev1.ObjectReference)
  : option apis.FieldError :=
  let disallowedFields := disallowedFieldsOf (reflectFields f) in
  if (0 <? length disallowedFields)%nat then
    match apis.ErrDisallowedFields disallowedFields with
    | Some (apis.mkFieldError m p _ es) =>
        Some (apis.mkFieldError
                m p "only name, apiVersion and kind are supported fields" es)
    | None => None
    end
  else None.

Definition IsValidObjectReference (f : corev1.ObjectReference)
  : option apis.FieldError :=
  apis.Also (checkRequiredObjectReferenceFields f)
            (checkDisallowedObjectReferenceFields f).

Definition deprecatedObjectReference (dest : Destination)
  : option corev1.ObjectReference :=
  if String.eqb (DeprecatedAPIVersion dest) ""
     && String.eqb (DeprecatedKind dest) ""
     && String.eqb (DeprecatedName dest) ""
  then None
  else Some {|
    corev1.Kind := DeprecatedKind dest;
    corev1.Namespace := "";
    corev1.Name := DeprecatedName dest;
    corev1.UID := "";
    corev1.APIVersion := DeprecatedAPIVersion dest;
    corev1.ResourceVersion := "";
    corev1.FieldPath := ""
  |}.

(** The block guarded by [!allowDeprecatedFields]: the errors it
    collects. *)
Definition deprecatedFieldErrors (dest : Destination)
  : option apis.FieldError :=
  let errs : option apis.FieldError := None in
  let errs :=
    if nonEmpty (DeprecatedAPIVersion dest) then
      apis.Also errs
        (apis.ErrInvalidValue
           "apiVersion is not allowed here, it's a deprecated value"
           "apiVersion")
    else errs in
  let errs :=
    if nonEmpty (DeprecatedKind dest) then
      apis.Also errs
        (apis.ErrInvalidValue
           "kind is not allowed here, it's a deprecated value" "kind")
    else errs in
  let errs :=
    if nonEmpty (DeprecatedName dest) then
      apis.Also errs
        (apis.ErrInvalidValue
           "name is not allowed here, it's a deprecated value" "name")
    else errs in
  errs.

Definition notNil {A : Type} (p : option A) : bool :=
  match p with Some _ => true | None => false end.

Definition isNil {A : Type} (p : option A) : bool := negb (notNil p).

(** [ValidateDestination] after the [!allowDeprecatedFields] block.
    [uriIsAbs] and [uriHost] stand for [dest.URI.URL().IsAbs()] and
    [dest.URI.Host], which the code reads only behind [dest.URI != nil]. *)
Definition validateRefAndURI (dest : Destination) : option apis.FieldError :=
  let deprecatedObjectReference := deprecatedObjectReference dest in
  if notNil (Ref dest) && notNil deprecatedObjectReference then
    apis.ErrGeneric "ref and [apiVersion, kind, name] can't be both present"
                    ["[apiVersion, kind, name]"; "ref"]
  else
    let ref :=
      if notNil (Ref dest) then Ref dest else deprecatedObjectReference in
    let uriIsAbs :=
      match URI dest with Some u => apis.IsAbs u | None => false end in
    let uriHost :=
      match URI dest with Some u => apis.Host u | None => "" end in
    if isNil ref && isNil (URI dest) then
      apis.ErrGeneric "expected at least one, got none"
                      ["[apiVersion, kind, name]"; "ref"; "uri"]
    else if notNil ref && notNil (URI dest) && uriIsAbs then
      apis.ErrGeneric
        "absolute URI is not allowed when Ref or [apiVersion, kind, name] is present"
        ["[apiVersion, kind, name]"; "ref"; "uri"]
    else if isNil ref && notNil (URI dest)
            && (negb uriIsAbs || String.eqb uriHost "") then
      apis.ErrInvalidValue
        "relative URI is not allowed when Ref and [apiVersion, kind, name] is absent"
        "uri"
    else
      match ref with
      | Some r =>
          if isNil (URI dest) then
            if notNil (Ref dest)
            then apis.ViaField (IsValidObjectReference r) "ref"
            else IsValidObjectReference r
          else None
      | None => None
      end.

Definition ValidateDestination (dest : Destination)
           (allowDeprecatedFields : bool) : option apis.FieldError :=
  if negb allowDeprecatedFields then
    let errs := deprecatedFieldErrors dest in
    if notNil errs then errs else validateRefAndURI dest
  else validateRefAndURI dest.

(** [GetRef] on a receiver that may be nil. *)
Definition GetRef (dest : option Destination)
  : option corev1.ObjectReference :=
  match dest with
  | None => None
  | Some d =>
      if notNil (Ref d) then Ref d
      else
        let ref := deprecatedObjectReference d in
        if notNil ref then ref else None
  end.

End v1alpha1.

(* ===================================================================== *)
(** ** Package apis/duck/v1: source_types.go                              *)
(* ===================================================================== *)

Module v1.

Definition ScalerClass : Type := string.

Definition ScalerClassKeda : ScalerClass := "keda".
Definition ScalerClassKsvc : ScalerClass := "ksvc".

Definition defaultScalerClass : ScalerClass := ScalerClassKeda.
Definition defaultMinScale : Z := 0.
Definition defaultMaxScale : Z := 1.

(** [MinScale] and [MaxScale] are [*int32]: nil or an integer. *)
Record ScalerSpec : Type := mkScalerSpec { Class : ScalerClass;
  MinScale : option Z;
  MaxScale : option Z;
  Options : gmap string string
}.

(** [Validate] on a receiver that may be nil.  The scales are int32 values;
    the code only compares them. *)
Definition Validate (ss : option ScalerSpec) : option apis.FieldError :=
  match ss with
  | None => None
  | Some ss =>
      let errs : option apis.FieldError := None in
      let errs :=
        if String.eqb (Class ss) ""
        then apis.Also errs (apis.ErrMissingField ["class"]) else errs in
      let errs :=
        match MinScale ss with
        | None => apis.Also errs (apis.ErrMissingField ["minScale"])
        | Some minScale =>
            if (minScale <? 0)%Z then
              apis.Also errs
                (apis.ErrOutOfBoundsValue minScale 0 math.MaxInt32 "minScale")
            else errs
        end in
      let errs :=
        match MaxScale ss with
        | None => apis.Also errs (apis.ErrMissingField ["maxScale"])
        | Some maxScale =>
            if (maxScale <? 1)%Z then
              apis.Also errs
                (apis.ErrOutOfBoundsValue maxScale 1 math.MaxInt32 "maxScale")
            else errs
        end in
      let errs :=
        match MinScale ss, MaxScale ss with
        | Some minScale, Some maxScale =>
            if (maxScale <? minScale)%Z then
              apis.Also errs
                (Some (apis.mkFieldError
                         ("maxScale=" +:+ fmt.Sprint_int maxScale
                          +:+ " is less than minScale="
                          +:+ fmt.Sprint_int minScale)
                         ["maxScale"; "minScale"] "" []))
            else errs
        | _, _ => errs
        end in
      errs
  end.

(** [utilpointer.Int32Ptr]. *)
Definition Int32Ptr (i : Z) : option Z := Some i.

(** [SetDefault] mutates its receiver: the function gives the receiver
    after the call; a nil receiver stays nil. *)
Definition SetDefault (ss : option ScalerSpec) : option ScalerSpec :=
  match ss with
  | None => None
  | Some ss =>
      let ss :=
        if String.eqb (Class ss) ""
        then {| Class := defaultScalerClass; MinScale := MinScale ss;
                MaxScale := MaxScale ss; Options := Options ss |}
        else ss in
      let ss :=
        match MinScale ss with
        | None => {| Class := Class ss; MinScale := Int32Ptr defaultMinScale;
                     MaxScale := MaxScale ss; Options := Options ss |}
        | Some _ => ss
        end in
      let ss :=
        match MaxScale ss with
        | None => {| Class := Class ss; MinScale := MinScale ss;
                     MaxScale := Int32Ptr defaultMaxScale;
                     Options := Options ss |}
        | Some _ => ss
        end in
      Some ss
  end.

(** Modelled from the spec: the embedded [Status] of package [v1]
    (status_types.go) is not among the sources; it has the two fields the
    comment in [SourceStatus] lists. *)
Module Status.
Record t : Type := mk {
  ObservedGeneration : Z;
  Conditions : list apis.Condition.t
}.
End Status.

Record SourceStatus : Type := mkSourceStatus {
  Status : Status.t;
  SinkURI : option apis.URL
}.

(** The loop of [IsReady] over [ss.Conditions]. *)
Fixpoint isReadyLoop (conditions : list apis.Condition.t) : bool :=
  match conditions with
  | [] => false
  | c :: conditions' =>
      if String.eqb (apis.Condition.Type_ c) apis.ConditionReady
         || String.eqb (apis.Condition.Type_ c) apis.ConditionSucceeded
      then apis.IsTrue c
      else isReadyLoop conditions'
  end.

Definition IsReady (ss : SourceStatus) : bool :=
  isReadyLoop (Status.Conditions (Status ss)).

End v1.

(* ===================================================================== *)
(** ** The chain of membership tests                                      *)
(* ===================================================================== *)

(** The branches of the if/else-if chain of [getMonitoredResourceFunc]. *)
Inductive Branch : Type :=
| RevisionBranch | BrokerBranch | TriggerBranch | ImporterBranch
| GlobalBranch.

(** An if/else-if chain of membership tests, tried in the order of the
    list: the outcome of the first test that succeeds, [default] when none
    does. *)
Fixpoint firstMatch {A : Type} (tests : list (gset string * A)) (default : A)
         (metricType : string) : A :=
  match tests with
  | [] => default
  | (set, outcome) :: tests' =>
      if sets.Has set metricType then outcome
      else firstMatch tests' default metricType
  end.

Definition eventingTests : list (gset string * Branch) :=
  [ (metricskeyeventing.KnativeBrokerMetrics, BrokerBranch);
    (metricskeyeventing.KnativeTriggerMetrics, TriggerBranch);
    (metricskeyeventing.KnativeImporterMetrics, ImporterBranch) ].

Definition chainTests `{MetricsKeyServing} : list (gset string * Branch) :=
  (KnativeRevisionMetrics, RevisionBranch) :: eventingTests.

(** What each branch of [getMonitoredResourceFunc] returns. *)
Definition runBranch `{MetricsKeyServing} (b : Branch)
  (v : view.View) (tags : list tag.Tag) (gm : monitoredresources.GcpMetadata)
  : list tag.Tag * Interface :=
  match b with
  | RevisionBranch => GetKnativeRevisionMonitoredResource v tags gm
  | BrokerBranch => GetKnativeBrokerMonitoredResource v tags gm
  | TriggerBranch => GetKnativeTriggerMonitoredResource v tags gm
  | ImporterBranch => GetKnativeTriggerMonitoredResource v tags gm
  | GlobalBranch => getGlobalMonitoredResource v tags
  end.

(** The conditions that tell the overall state. *)
Definition isHappy (c : apis.Condition.t) : Prop :=
  apis.Condition.Type_ c = "Ready" \/ apis.Condition.Type_ c = "Succeeded".

(* ===================================================================== *)
(** ** Sample inputs                                                      *)
(* ===================================================================== *)

(** A package [metricskey/serving] to run the dispatch on: the two serving
    metric types the tests of stackdriver_exporter_test.go dispatch to
    [knative_revision]. *)
Definition sampleServing : MetricsKeyServing := {|
  LabelServiceName := "service_name";
  LabelConfigurationName := "configuration_name";
  LabelRevisionName := "revision_name";
  KnativeRevisionLabels :=
    sets.NewString
      [ "project_id"; "location"; "cluster_name"; "namespace_name";
        "service_name"; "configuration_name"; "revision_name" ];
  KnativeRevisionMetrics :=
    sets.NewString
      [ "knative.dev/serving/activator/request_count";
        "knative.dev/serving/autoscaler/desired_pods" ]
|}.

Definition testGcpMetadata : monitoredresources.GcpMetadata := {|
  monitoredresources.Project := "test-project";
  monitoredresources.Location := "test-location";
  monitoredresources.Cluster := "test-cluster"
|}.

Definition viewOf (measureName : string) : view.View := {|
  view.Description := "Test View";
  view.Measure := view.Measure.mk measureName
|}.

Definition tagOf (key value : string) : tag.Tag :=
  tag.mkTag (tag.Key.mk key) value.

Definition sampleTags : list tag.Tag :=
  [ tagOf "namespace_name" "test-ns";
    tagOf "broker_name" "test-broker";
    tagOf "trigger_filter_type" "dev.knative.sample";
    tagOf "route_name" "test-route" ].

Definition sampleRef : corev1.ObjectReference := {|
  corev1.Kind := "Service";
  corev1.Namespace := "";
  corev1.Name := "sink";
  corev1.UID := "";
  corev1.APIVersion := "serving.knative.dev/v1";
  corev1.ResourceVersion := "";
  corev1.FieldPath := ""
|}.

Definition refOnly : v1alpha1.Destination := {|
  v1alpha1.Ref := Some sampleRef;
  v1alpha1.DeprecatedAPIVersion := "";
  v1alpha1.DeprecatedKind := "";
  v1alpha1.DeprecatedName := "";
  v1alpha1.URI := None
|}.

(** Ref alone is set and has its three required fields, and Namespace as
    well. *)
Definition refWithNamespace : v1alpha1.Destination := {|
  v1alpha1.Ref := Some {|
    corev1.Kind := "Service";
    corev1.Namespace := "default";
    corev1.Name := "sink";
    corev1.UID := "";
    corev1.APIVersion := "serving.knative.dev/v1";
    corev1.ResourceVersion := "";
    corev1.FieldPath := ""
  |};
  v1alpha1.DeprecatedAPIVersion := "";
  v1alpha1.DeprecatedKind := "";
  v1alpha1.DeprecatedName := "";
  v1alpha1.URI := None
|}.

(** The deprecated fields alone are set, all three. *)
Definition deprecatedOnly : v1alpha1.Destination := {|
  v1alpha1.Ref := None;
  v1alpha1.DeprecatedAPIVersion := "serving.knative.dev/v1";
  v1alpha1.DeprecatedKind := "Service";
  v1alpha1.DeprecatedName := "sink";
  v1alpha1.URI := None
|}.

Definition refAndDeprecated : v1alpha1.Destination := {|
  v1alpha1.Ref := Some sampleRef;
  v1alpha1.DeprecatedAPIVersion := "";
  v1alpha1.DeprecatedKind := "Service";
  v1alpha1.DeprecatedName := "";
  v1alpha1.URI := None
|}.

Definition nothingSet : v1alpha1.Destination := {|
  v1alpha1.Ref := None;
  v1alpha1.DeprecatedAPIVersion := "";
  v1alpha1.DeprecatedKind := "";
  v1alpha1.DeprecatedName := "";
  v1alpha1.URI := None
|}.

Definition classOnly : v1.ScalerSpec := {|
  v1.Class := v1.ScalerClassKsvc;
  v1.MinScale := None;
  v1.MaxScale := Some 5%Z;
  v1.Options := ∅
|}.

Definition conditionOf (type status : string) : apis.Condition.t := {|
  apis.Condition.Type_ := type;
  apis.Condition.Status := status;
  apis.Condition.Severity := "";
  apis.Condition.Reason := "";
  apis.Condition.Message := ""
|}.

Definition sampleStatus : v1.SourceStatus := {|
  v1.Status := {|
    v1.Status.ObservedGeneration := 42;
    v1.Status.Conditions :=
      [ conditionOf "SinkProvided" "False";
        conditionOf "Ready" "True";
        conditionOf "Succeeded" "False" ]
  |};
  v1.SinkURI := None
|}.

Definition sampleURL : apis.URL := {|
  apis.Scheme := "https";
  apis.Host := "tableflip.dev";
  apis.Path := "";
  apis.RawQuery := "flip=mattmoor"
|}.

Definition relativeURL : apis.URL := {|
  apis.Scheme := "";
  apis.Host := "";
  apis.Path := "/extra/path";
  apis.RawQuery := ""
|}.

Definition uriOnly : v1alpha1.Destination := {|
  v1alpha1.Ref := None;
  v1alpha1.DeprecatedAPIVersion := "";
  v1alpha1.DeprecatedKind := "";
  v1alpha1.DeprecatedName := "";
  v1alpha1.URI := Some sampleURL
|}.

(** A reference without a name, together with a relative URI. *)
Definition namelessRefAndRelativeURI : v1alpha1.Destination := {|
  v1alpha1.Ref := Some {|
    corev1.Kind := "Service";
    corev1.Namespace := "";
    corev1.Name := "";
    corev1.UID := "";
    corev1.APIVersion := "serving.knative.dev/v1";
    corev1.ResourceVersion := "";
    corev1.FieldPath := ""
  |};
  v1alpha1.DeprecatedAPIVersion := "";
  v1alpha1.DeprecatedKind := "";
  v1alpha1.DeprecatedName := "";
  v1alpha1.URI := Some relativeURL
|}.

(** The scaler of [Populate]. *)
Definition populatedScaler : v1.ScalerSpec := {|
  v1.Class := v1.ScalerClassKsvc;
  v1.MinScale := v1.Int32Ptr 0;
  v1.MaxScale := v1.Int32Ptr 1;
  v1.Options := {[ "myoption" := "myoptionvalue" ]}
|}.

Definition emptyScaler : v1.ScalerSpec := {|
  v1.Class := "";
  v1.MinScale := None;
  v1.MaxScale := None;
  v1.Options := ∅
|}.

Definition minScaleOnly : v1.ScalerSpec := {|
  v1.Class := "";
  v1.MinScale := Some 3%Z;
  v1.MaxScale := None;
  v1.Options := ∅
|}.

(* ===================================================================== *)
(** * Properties                                                          *)
(* ===================================================================== *)

(** ** [path.Join] on sample paths *)

Example Join_importer :
  path.Join ["knative.dev/eventing/importer"; "event_count"]
  = "knative.dev/eventing/importer/event_count".
Proof. reflexivity. Qed.

Example Clean_dotdot : path.Clean "a/b/../c/./d//e/.." = "a/c/d".
Proof. reflexivity. Qed.

Example Clean_rooted : path.Clean "/../a/../../b" = "/b".
Proof. reflexivity. Qed.

Example Clean_up : path.Clean "../../a/.." = "../..".
Proof. reflexivity. Qed.

Example Clean_abc : path.Clean "abc/.." = ".".
Proof. reflexivity. Qed.

(** ** String sets and the tag filter *)

Lemma Has_true (s : gset string) (item : string) :
  sets.Has s item = true <-> item ∈ s.
Proof. unfold sets.Has. apply bool_decide_eq_true. Qed.

Lemma Has_false (s : gset string) (item : string) :
  sets.Has s item = false <-> item ∉ s.
Proof. unfold sets.Has. apply bool_decide_eq_false. Qed.

Lemma elem_of_NewString (items : list string) (item : string) :
  item ∈ sets.NewString items <-> item ∈ items.
Proof. unfold sets.NewString. apply elem_of_list_to_set. Qed.

(** The loop keeps, in order, the tags whose key is not a resource label. *)
Lemma keepNonResourceTags_filter (labels : gset string) (tags : list tag.Tag) :
  keepNonResourceTags labels tags
  = filter (fun t => tag.Key.Name (tag.Key t) ∉ labels) tags.
Proof.
  induction tags as [|t tags IH]; simpl; [reflexivity|].
  destruct (sets.Has labels (tag.Key.Name (tag.Key t))) eqn:E; simpl.
  - apply Has_true in E. rewrite filter_cons_False; [exact IH|].
    intros Hn. exact (Hn E).
  - apply Has_false in E. rewrite filter_cons_True by exact E.
    f_equal. exact IH.
Qed.

(** The three eventing metric sets share no name. *)
Lemma eventing_metrics_disjoint :
  metricskeyeventing.KnativeBrokerMetrics
    ## metricskeyeventing.KnativeTriggerMetrics
  /\ metricskeyeventing.KnativeBrokerMetrics
    ## metricskeyeventing.KnativeImporterMetrics
  /\ metricskeyeventing.KnativeTriggerMetrics
    ## metricskeyeventing.KnativeImporterMetrics.
Proof.
  unfold metricskeyeventing.KnativeBrokerMetrics,
    metricskeyeventing.KnativeTriggerMetrics,
    metricskeyeventing.KnativeImporterMetrics.
  repeat split; intros m; rewrite !elem_of_NewString, !list_elem_of_In;
    simpl; intros H1 H2; intuition (subst; discriminate).
Qed.

Lemma Has_broker_others (m : string) :
  sets.Has metricskeyeventing.KnativeBrokerMetrics m = true ->
  sets.Has metricskeyeventing.KnativeTriggerMetrics m = false
  /\ sets.Has metricskeyeventing.KnativeImporterMetrics m = false.
Proof.
  destruct eventing_metrics_disjoint as (Hbt & Hbi & _).
  rewrite Has_true, !Has_false. intros Hm. split; intros Hn.
  - exact (Hbt m Hm Hn).
  - exact (Hbi m Hm Hn).
Qed.

Lemma Has_trigger_others (m : string) :
  sets.Has metricskeyeventing.KnativeTriggerMetrics m = true ->
  sets.Has metricskeyeventing.KnativeBrokerMetrics m = false
  /\ sets.Has metricskeyeventing.KnativeImporterMetrics m = false.
Proof.
  destruct eventing_metrics_disjoint as (Hbt & _ & Hti).
  rewrite Has_true, !Has_false. intros Hm. split; intros Hn.
  - exact (Hbt m Hn Hm).
  - exact (Hti m Hm Hn).
Qed.

Lemma Has_importer_others (m : string) :
  sets.Has metricskeyeventing.KnativeImporterMetrics m = true ->
  sets.Has metricskeyeventing.KnativeBrokerMetrics m = false
  /\ sets.Has metricskeyeventing.KnativeTriggerMetrics m = false.
Proof.
  destruct eventing_metrics_disjoint as (_ & Hbi & Hti).
  rewrite Has_true, !Has_false. intros Hm. split; intros Hn.
  - exact (Hbi m Hn Hm).
  - exact (Hti m Hn Hm).
Qed.

(** ** The dispatch of [getMonitoredResourceFunc] *)

Section DispatchProperties.

Context `{MetricsKeyServing}.

Import monitoredresources.

Implicit Types (v : view.View) (tags : list tag.Tag) (gm : GcpMetadata).


Lemma KnativeTrigger_label_keys (kt : KnativeTrigger.t) :
  (MonitoredResource kt).1 = "knative_trigger"
  /\ dom (MonitoredResource kt).2
     = {[ "project_id"; "location"; "cluster_name"; "namespace_name";
          "trigger_name"; "broker_name"; "trigger_filter_type";
          "trigger_filter_source" ]}.
Proof.
  split; [reflexivity|]. unfold MonitoredResource; simpl.
  rewrite !dom_insert_L, dom_empty_L.
  unfold metricskey.LabelProject, metricskey.LabelLocation,
    metricskey.LabelClusterName, metricskey.LabelNamespaceName,
    metricskeyeventing.LabelTriggerName, metricskeyeventing.LabelBrokerName,
    metricskeyeventing.LabelTriggerTypeFilterAttribute,
    metricskeyeventing.LabelTriggerSourceFilterAttribute.
  set_solver.
Qed.

Lemma trigger_result_keys v tags gm :
  (MonitoredResource (GetKnativeTriggerMonitoredResource v tags gm).2).1
  = "knative_trigger"
  /\ dom (MonitoredResource (GetKnativeTriggerMonitoredResource v tags gm).2).2
     = {[ "project_id"; "location"; "cluster_name"; "namespace_name";
          "trigger_name"; "broker_name"; "trigger_filter_type";
          "trigger_filter_source" ]}.
Proof. exact (KnativeTrigger_label_keys _). Qed.


(** Which function each branch of the chain runs. *)
Lemma dispatch_broker prefix gm v tags :
  sets.Has KnativeRevisionMetrics (joinedMetricType prefix v) = false ->
  sets.Has metricskeyeventing.KnativeBrokerMetrics
           (joinedMetricType prefix v) = true ->
  getMonitoredResourceFunc prefix gm v tags
  = GetKnativeBrokerMonitoredResource v tags gm.
Proof.
  intros Hr Hb. unfold getMonitoredResourceFunc; simpl.
  rewrite Hr, Hb. reflexivity.
Qed.

Lemma dispatch_trigger prefix gm v tags :
  sets.Has KnativeRevisionMetrics (joinedMetricType prefix v) = false ->
  sets.Has metricskeyeventing.KnativeTriggerMetrics
           (joinedMetricType prefix v) = true ->
  getMonitoredResourceFunc prefix gm v tags
  = GetKnativeTriggerMonitoredResource v tags gm.
Proof.
  intros Hr Ht. unfold getMonitoredResourceFunc; simpl.
  destruct (Has_trigger_others _ Ht) as [Hb _].
  rewrite Hr, Hb, Ht. reflexivity.
Qed.

Lemma dispatch_importer prefix gm v tags :
  sets.Has KnativeRevisionMetrics (joinedMetricType prefix v) = false ->
  sets.Has metricskeyeventing.KnativeImporterMetrics
           (joinedMetricType prefix v) = true ->
  getMonitoredResourceFunc prefix gm v tags
  = GetKnativeTriggerMonitoredResource v tags gm.
Proof.
  intros Hr Hi. unfold getMonitoredResourceFunc; simpl.
  destruct (Has_importer_others _ Hi) as [Hb Ht].
  rewrite Hr, Hb, Ht, Hi. reflexivity.
Qed.

(** C1: on a view whose joined metric type is a knative importer metric
    name (and is not claimed by the serving set, whose test comes first),
    the function returned by [getMonitoredResourceFunc] runs
    [GetKnativeTriggerMonitoredResource], not
    [GetKnativeImporterMonitoredResource]: the resource type is
    knative_trigger, not knative_importer, and the label map has the
    eight trigger keys, among them trigger_name and broker_name and
    neither importer_name nor importer_kind. *)
Theorem importer_view_gets_trigger_resource prefix gm v tags :
  sets.Has KnativeRevisionMetrics (joinedMetricType prefix v) = false ->
  sets.Has metricskeyeventing.KnativeImporterMetrics
           (joinedMetricType prefix v) = true ->
  let mr := (getMonitoredResourceFunc prefix gm v tags).2 in
  getMonitoredResourceFunc prefix gm v tags
    = GetKnativeTriggerMonitoredResource v tags gm
  /\ (MonitoredResource mr).1 = "knative_trigger"
  /\ (MonitoredResource mr).1 <> "knative_importer"
  /\ dom (MonitoredResource mr).2
     = {[ "project_id"; "location"; "cluster_name"; "namespace_name";
          "trigger_name"; "broker_name"; "trigger_filter_type";
          "trigger_filter_source" ]}
  /\ ("importer_name" ∉ dom (MonitoredResource mr).2)
  /\ ("importer_kind" ∉ dom (MonitoredResource mr).2).
Proof.
  intros Hr Hi mr. subst mr.
  rewrite (dispatch_importer prefix gm v tags Hr Hi).
  destruct (trigger_result_keys v tags gm) as [Hty Hdom].
  rewrite Hty, Hdom.
  repeat split; try discriminate; set_solver.
Qed.


(** C5: on a view whose joined metric type is in none of the four metric
    sets, the dispatch returns the input tags unchanged together with the
    Global resource, of type global and with no labels; the function is
    total, so the fallback always returns. *)
Theorem unsupported_view_gets_global prefix gm v tags :
  sets.Has KnativeRevisionMetrics (joinedMetricType prefix v) = false ->
  sets.Has metricskeyeventing.KnativeBrokerMetrics
           (joinedMetricType prefix v) = false ->
  sets.Has metricskeyeventing.KnativeTriggerMetrics
           (joinedMetricType prefix v) = false ->
  sets.Has metricskeyeventing.KnativeImporterMetrics
           (joinedMetricType prefix v) = false ->
  getMonitoredResourceFunc prefix gm v tags = (tags, OfGlobal mkGlobal)
  /\ getMonitoredResourceFunc prefix gm v tags
     = getGlobalMonitoredResource v tags
  /\ MonitoredResource (getMonitoredResourceFunc prefix gm v tags).2
     = ("global", ∅).
Proof.
  intros Hr Hb Ht Hi. unfold getMonitoredResourceFunc; simpl.
  rewrite Hr, Hb, Ht, Hi. repeat split.
Qed.

End DispatchProperties.

(** ** The tag map *)

Section TagsMap.

Import monitoredresources.

Implicit Types (tags : list tag.Tag) (tagsMap : gmap string string).

Let put := fun tagsMap (t : tag.Tag) =>
  <[tag.Key.Name (tag.Key t) := tag.Value t]> tagsMap.

Let keys := fun tags => List.map (fun t => tag.Key.Name (tag.Key t)) tags.

Lemma fold_put_other tags tagsMap (key : string) :
  ~ In key (keys tags) ->
  fold_left put tags tagsMap !! key = tagsMap !! key.
Proof.
  revert tagsMap. induction tags as [|t tags IH]; intros tagsMap Hk.
  - reflexivity.
  - simpl in *. rewrite IH by tauto. unfold put.
    apply lookup_insert_ne. tauto.
Qed.

Lemma fold_put_present tags tagsMap (key : string) :
  In key (keys tags) ->
  exists t, In t tags /\ tag.Key.Name (tag.Key t) = key
            /\ fold_left put tags tagsMap !! key = Some (tag.Value t).
Proof.
  revert tagsMap. induction tags as [|t tags IH]; intros tagsMap Hk.
  - destruct Hk.
  - simpl. destruct (in_dec string_dec key (keys tags)) as [Hin|Hout].
    + destruct (IH (put tagsMap t) Hin) as (t' & Ht' & Hkey & Hl).
      exists t'. auto.
    + destruct Hk as [Hk|Hk]; [|contradiction].
      exists t. split; [auto|]. split; [exact Hk|].
      rewrite fold_put_other by exact Hout. unfold put.
      rewrite Hk. apply lookup_insert_eq.
Qed.

Lemma fold_put_unique tags tagsMap (t : tag.Tag) :
  List.NoDup (keys tags) -> In t tags ->
  fold_left put tags tagsMap !! tag.Key.Name (tag.Key t)
  = Some (tag.Value t).
Proof.
  revert tagsMap. induction tags as [|t0 tags IH]; intros tagsMap Hnd Hin.
  - destruct Hin.
  - simpl in *. inversion Hnd as [|? ? Hout Hnd']; subst.
    destruct Hin as [->|Hin].
    + rewrite fold_put_other by exact Hout. apply lookup_insert_eq.
    + apply IH; assumption.
Qed.

(** A label absent from the tags is reported as unknown. *)
Lemma ValueOrUnknown_absent tags (key : string) :
  ~ In key (keys tags) ->
  ValueOrUnknown key (GetTagsMap tags) = "unknown".
Proof.
  intros Hk. unfold ValueOrUnknown, GetTagsMap.
  fold put. rewrite fold_put_other by exact Hk.
  rewrite lookup_empty. reflexivity.
Qed.

(** A label present among the tags takes the value of a tag with that
    key. *)
Lemma ValueOrUnknown_present tags (key : string) :
  In key (keys tags) ->
  exists t, In t tags /\ tag.Key.Name (tag.Key t) = key
            /\ ValueOrUnknown key (GetTagsMap tags) = tag.Value t.
Proof.
  intros Hk. destruct (fold_put_present tags ∅ key Hk) as (t & Hin & Hkey & Hl).
  exists t. split; [exact Hin|]. split; [exact Hkey|].
  unfold ValueOrUnknown, GetTagsMap. fold put. rewrite Hl. reflexivity.
Qed.

(** When no two tags share a key, it is the value of the tag. *)
Lemma ValueOrUnknown_unique tags (t : tag.Tag) :
  List.NoDup (keys tags) -> In t tags ->
  ValueOrUnknown (tag.Key.Name (tag.Key t)) (GetTagsMap tags) = tag.Value t.
Proof.
  intros Hnd Hin. unfold ValueOrUnknown, GetTagsMap. fold put.
  rewrite (fold_put_unique tags ∅ t Hnd Hin). reflexivity.
Qed.

End TagsMap.

(** ** What goes into the resource and what stays in the tags *)

Section ResourceProperties.

Context `{MetricsKeyServing}.

Import monitoredresources.

Implicit Types (v : view.View) (tags : list tag.Tag) (gm : GcpMetadata).

(** C3: on a view whose joined metric type is a knative revision metric
    name the dispatch runs [GetKnativeRevisionMonitoredResource], which
    returns a [KnativeRevision] whose Project, Location and ClusterName
    are those of the GCP metadata, and whose NamespaceName, ServiceName,
    ConfigurationName and RevisionName are each the string unknown when no
    tag has the label as its key, and the value of a tag with that key
    when there is one (of the tag with that key, when keys are not
    repeated). *)
Theorem revision_resource_fields prefix gm v tags :
  sets.Has KnativeRevisionMetrics (joinedMetricType prefix v) = true ->
  exists kr : KnativeRevision.t,
    getMonitoredResourceFunc prefix gm v tags
      = GetKnativeRevisionMonitoredResource v tags gm
    /\ (GetKnativeRevisionMonitoredResource v tags gm).2
       = OfKnativeRevision kr
    /\ KnativeRevision.Project kr = Project gm
    /\ KnativeRevision.Location kr = Location gm
    /\ KnativeRevision.ClusterName kr = Cluster gm
    /\ forall label field : string,
         In (label, field)
            [ (metricskey.LabelNamespaceName, KnativeRevision.NamespaceName kr);
              (LabelServiceName, KnativeRevision.ServiceName kr);
              (LabelConfigurationName, KnativeRevision.ConfigurationName kr);
              (LabelRevisionName, KnativeRevision.RevisionName kr) ] ->
         let keys := List.map (fun t => tag.Key.Name (tag.Key t)) tags in
         (~ In label keys -> field = "unknown")
         /\ (In label keys ->
             exists t, In t tags /\ tag.Key.Name (tag.Key t) = label
                       /\ field = tag.Value t)
         /\ (List.NoDup keys ->
             forall t, In t tags -> tag.Key.Name (tag.Key t) = label ->
                       field = tag.Value t).
Proof.
  intros Hr.
  eexists. split.
  { unfold getMonitoredResourceFunc; simpl. rewrite Hr. reflexivity. }
  split; [reflexivity|]. simpl.
  repeat (split; [reflexivity|]).
  intros label field Hin.
  assert (Hf : field = ValueOrUnknown label (GetTagsMap tags)).
  { destruct Hin as [E|[E|[E|[E|[]]]]]; inversion E; reflexivity. }
  rewrite Hf. clear Hin Hf. split; [|split].
  - apply ValueOrUnknown_absent.
  - apply ValueOrUnknown_present.
  - intros Hnd t Hin <-. apply ValueOrUnknown_unique; assumption.
Qed.

(** C2: on a trigger-metric view, a tag keyed trigger_filter_type or
    trigger_filter_source is still in the returned tag list, although its
    key is one of the labels of the KnativeTrigger resource: the returned
    tags are the input tags whose key is not in [KnativeTriggerLabels],
    and that set has only six of the eight labels. *)
Theorem trigger_view_keeps_filter_tags prefix gm v tags (t : tag.Tag) :
  sets.Has KnativeRevisionMetrics (joinedMetricType prefix v) = false ->
  sets.Has metricskeyeventing.KnativeTriggerMetrics
           (joinedMetricType prefix v) = true ->
  In t tags ->
  tag.Key.Name (tag.Key t) = "trigger_filter_type"
  \/ tag.Key.Name (tag.Key t) = "trigger_filter_source" ->
  let r := getMonitoredResourceFunc prefix gm v tags in
  In t r.1
  /\ (MonitoredResource r.2).1 = "knative_trigger"
  /\ tag.Key.Name (tag.Key t) ∈ dom (MonitoredResource r.2).2
  /\ r.1 = filter (fun t => tag.Key.Name (tag.Key t)
                              ∉ metricskeyeventing.KnativeTriggerLabels)
                  tags.
Proof.
  intros Hr Ht Hin Hkey r. subst r.
  rewrite (dispatch_trigger prefix gm v tags Hr Ht).
  destruct (trigger_result_keys v tags gm) as [Hty Hdom].
  rewrite Hty, Hdom.
  assert (Hf : (GetKnativeTriggerMonitoredResource v tags gm).1
               = filter (fun t => tag.Key.Name (tag.Key t)
                              ∉ metricskeyeventing.KnativeTriggerLabels) tags)
    by apply keepNonResourceTags_filter.
  rewrite Hf. split; [|split; [reflexivity|split; [|reflexivity]]].
  - apply list_elem_of_In, list_elem_of_filter. split.
    + unfold metricskeyeventing.KnativeTriggerLabels.
      rewrite elem_of_NewString, list_elem_of_In. simpl.
      destruct Hkey as [-> | ->]; intuition discriminate.
    + apply list_elem_of_In. exact Hin.
  - destruct Hkey as [-> | ->]; set_solver.
Qed.

End ResourceProperties.

(** ** Order of the membership tests *)

Section FirstMatch.

Context {A : Type}.

Implicit Types (tests : list (gset string * A)) (default : A).

Lemma firstMatch_cases tests default (m : string) :
  (exists p, In p tests /\ sets.Has p.1 m = true
             /\ firstMatch tests default m = p.2)
  \/ ((forall p, In p tests -> sets.Has p.1 m = false)
      /\ firstMatch tests default m = default).
Proof.
  induction tests as [|[set outcome] tests IH]; simpl.
  - right. split; [intros p []|reflexivity].
  - destruct (sets.Has set m) eqn:E.
    + left. exists (set, outcome). auto.
    + destruct IH as [(p & Hin & Hp & Hf)|[Hnone Hf]].
      * left. exists p. auto.
      * right. split; [|exact Hf].
        intros p [<-|Hin]; [exact E|auto].
Qed.

(** When the tests that succeed on [m] all have the same outcome, the
    order of the tests does not matter. *)
Lemma firstMatch_Permutation tests tests' default (m : string) :
  Permutation tests tests' ->
  (forall p q, In p tests -> In q tests ->
               sets.Has p.1 m = true -> sets.Has q.1 m = true ->
               p.2 = q.2) ->
  firstMatch tests default m = firstMatch tests' default m.
Proof.
  intros Hperm Hagree.
  destruct (firstMatch_cases tests default m)
    as [(p & Hin & Hp & ->)|[Hnone ->]];
    destruct (firstMatch_cases tests' default m)
      as [(q & Hin' & Hq & ->)|[Hnone' ->]].
  - apply Hagree; auto.
    apply (Permutation_in q (Permutation_sym Hperm) Hin').
  - apply (Permutation_in p Hperm) in Hin.
    rewrite (Hnone' p Hin) in Hp. discriminate.
  - apply (Permutation_in q (Permutation_sym Hperm)) in Hin'.
    rewrite (Hnone q Hin') in Hq. discriminate.
  - reflexivity.
Qed.

End FirstMatch.

Lemma existsb_Permutation {A : Type} (f : A -> bool) (l l' : list A) :
  Permutation l l' -> existsb f l = existsb f l'.
Proof.
  induction 1 as [|x l l' _ IH|x y l|l l' l'' _ IH1 _ IH2]; simpl.
  - reflexivity.
  - rewrite IH. reflexivity.
  - destruct (f x), (f y); reflexivity.
  - congruence.
Qed.

Ltac eventing_clash m :=
  try match goal with
    | Hm : sets.Has metricskeyeventing.KnativeBrokerMetrics m = true |- _ =>
        destruct (Has_broker_others m Hm)
    end;
  try match goal with
    | Hm : sets.Has metricskeyeventing.KnativeTriggerMetrics m = true |- _ =>
        destruct (Has_trigger_others m Hm)
    end;
  try match goal with
    | Hm : sets.Has metricskeyeventing.KnativeImporterMetrics m = true |- _ =>
        destruct (Has_importer_others m Hm)
    end;
  congruence.

Lemma eventingTests_agree (m : string) (p q : gset string * Branch) :
  In p eventingTests -> In q eventingTests ->
  sets.Has p.1 m = true -> sets.Has q.1 m = true -> p.2 = q.2.
Proof.
  unfold eventingTests. simpl.
  intros [<-|[<-|[<-|[]]]] [<-|[<-|[<-|[]]]]; cbn [fst snd]; intros Hp Hq;
    try reflexivity; eventing_clash m.
Qed.

Section OrderIndependence.

Context `{MetricsKeyServing}.

Import monitoredresources.

Implicit Types (v : view.View) (tags : list tag.Tag) (gm : GcpMetadata).

Lemma getMonitoredResourceFunc_chain prefix gm v tags :
  getMonitoredResourceFunc prefix gm v tags
  = runBranch (firstMatch chainTests GlobalBranch (joinedMetricType prefix v))
              v tags gm.
Proof.
  unfold getMonitoredResourceFunc, chainTests, eventingTests; simpl.
  repeat match goal with
         | |- context [sets.Has ?s ?m] => destruct (sets.Has s m)
         end; reflexivity.
Qed.

Lemma chainTests_agree (m : string) (p q : gset string * Branch) :
  KnativeRevisionMetrics
    ## metricskeyeventing.KnativeBrokerMetrics
       ∪ metricskeyeventing.KnativeTriggerMetrics
       ∪ metricskeyeventing.KnativeImporterMetrics ->
  In p chainTests -> In q chainTests ->
  sets.Has p.1 m = true -> sets.Has q.1 m = true -> p.2 = q.2.
Proof.
  intros Hdis Hp Hq Hpm Hqm.
  destruct Hp as [<-|Hp], Hq as [<-|Hq].
  - reflexivity.
  - exfalso. simpl in Hpm. apply Has_true in Hpm.
    apply (Hdis m Hpm).
    destruct Hq as [<-|[<-|[<-|[]]]]; cbn [fst] in Hqm;
      apply Has_true in Hqm;
      [ apply elem_of_union_l, elem_of_union_l
      | apply elem_of_union_l, elem_of_union_r
      | apply elem_of_union_r ]; exact Hqm.
  - exfalso. simpl in Hqm. apply Has_true in Hqm.
    apply (Hdis m Hqm).
    destruct Hp as [<-|[<-|[<-|[]]]]; cbn [fst] in Hpm;
      apply Has_true in Hpm;
      [ apply elem_of_union_l, elem_of_union_l
      | apply elem_of_union_l, elem_of_union_r
      | apply elem_of_union_r ]; exact Hpm.
  - apply (eventingTests_agree m); assumption.
Qed.

(** C4: the three eventing metric sets are pairwise disjoint.  Hence the
    branch that [getMonitoredResourceFunc] takes is the same for every
    order of the three eventing tests behind the serving test, and, when
    the serving set shares no name with the eventing sets, for every order
    of the four tests; the value of [getMetricTypeFunc] is the same for
    every order of its four tests. *)
Theorem dispatch_order_independent prefix customPrefix gm v tags :
  let m := joinedMetricType prefix v in
  (metricskeyeventing.KnativeBrokerMetrics
     ## metricskeyeventing.KnativeTriggerMetrics
   /\ metricskeyeventing.KnativeBrokerMetrics
     ## metricskeyeventing.KnativeImporterMetrics
   /\ metricskeyeventing.KnativeTriggerMetrics
     ## metricskeyeventing.KnativeImporterMetrics)
  /\ (forall eventing',
        Permutation eventing' eventingTests ->
        let tests' := (KnativeRevisionMetrics, RevisionBranch) :: eventing' in
        firstMatch tests' GlobalBranch m
        = firstMatch chainTests GlobalBranch m
        /\ getMonitoredResourceFunc prefix gm v tags
           = runBranch (firstMatch tests' GlobalBranch m) v tags gm)
  /\ (KnativeRevisionMetrics
        ## metricskeyeventing.KnativeBrokerMetrics
           ∪ metricskeyeventing.KnativeTriggerMetrics
           ∪ metricskeyeventing.KnativeImporterMetrics ->
      forall tests',
        Permutation tests' chainTests ->
        firstMatch tests' GlobalBranch m
        = firstMatch chainTests GlobalBranch m
        /\ getMonitoredResourceFunc prefix gm v tags
           = runBranch (firstMatch tests' GlobalBranch m) v tags gm)
  /\ (forall sets',
        Permutation sets'
          [ KnativeRevisionMetrics;
            metricskeyeventing.KnativeBrokerMetrics;
            metricskeyeventing.KnativeTriggerMetrics;
            metricskeyeventing.KnativeImporterMetrics ] ->
        getMetricTypeFunc prefix customPrefix v
        = if existsb (fun s => sets.Has s m) sets' then m
          else path.Join [customPrefix; view.Measure.Name (view.Measure v)]).
Proof.
  intros m. split; [exact eventing_metrics_disjoint|].
  split; [|split].
  - intros eventing' Hperm tests'.
    assert (E : firstMatch tests' GlobalBranch m
                = firstMatch chainTests GlobalBranch m).
    { subst tests'. unfold chainTests. cbn [firstMatch].
      destruct (sets.Has KnativeRevisionMetrics m); [reflexivity|].
      symmetry. apply firstMatch_Permutation.
      - apply Permutation_sym, Hperm.
      - apply eventingTests_agree. }
    split; [exact E|]. rewrite E. apply getMonitoredResourceFunc_chain.
  - intros Hdis tests' Hperm.
    assert (E : firstMatch tests' GlobalBranch m
                = firstMatch chainTests GlobalBranch m).
    { symmetry. apply firstMatch_Permutation.
      - apply Permutation_sym, Hperm.
      - intros p q. apply chainTests_agree. exact Hdis. }
    split; [exact E|]. rewrite E. apply getMonitoredResourceFunc_chain.
  - intros sets' Hperm.
    rewrite (existsb_Permutation _ _ _ Hperm).
    unfold getMetricTypeFunc; simpl. fold m.
    rewrite orb_false_r, !orb_assoc. reflexivity.
Qed.

End OrderIndependence.

(** ** Destination *)

Section DestinationProperties.

Import v1alpha1.

Implicit Types (dest : Destination) (r : corev1.ObjectReference).

Lemma nonEmpty_true (s : string) : nonEmpty s = true <-> s <> "".
Proof.
  unfold nonEmpty. rewrite negb_true_iff. apply String.eqb_neq.
Qed.

Lemma eqb_empty_false (s : string) : s <> "" -> String.eqb s "" = false.
Proof. apply String.eqb_neq. Qed.

(** The deprecated fields give an object reference as soon as one of them
    is set. *)
Lemma deprecatedObjectReference_set dest :
  DeprecatedAPIVersion dest <> "" \/ DeprecatedKind dest <> ""
  \/ DeprecatedName dest <> "" ->
  deprecatedObjectReference dest
  = Some {| corev1.Kind := DeprecatedKind dest;
            corev1.Namespace := "";
            corev1.Name := DeprecatedName dest;
            corev1.UID := "";
            corev1.APIVersion := DeprecatedAPIVersion dest;
            corev1.ResourceVersion := "";
            corev1.FieldPath := "" |}.
Proof.
  intros Hset. unfold deprecatedObjectReference.
  destruct (String.eqb_spec (DeprecatedAPIVersion dest) "");
    destruct (String.eqb_spec (DeprecatedKind dest) "");
    destruct (String.eqb_spec (DeprecatedName dest) "");
    simpl; try reflexivity; tauto.
Qed.

Lemma deprecatedObjectReference_unset dest :
  DeprecatedAPIVersion dest = "" -> DeprecatedKind dest = "" ->
  DeprecatedName dest = "" ->
  deprecatedObjectReference dest = None.
Proof.
  intros Ha Hk Hn. unfold deprecatedObjectReference.
  rewrite Ha, Hk, Hn. reflexivity.
Qed.

(** With deprecated fields disallowed, each one that is set is an error. *)
Lemma deprecatedFieldErrors_set dest :
  DeprecatedAPIVersion dest <> "" \/ DeprecatedKind dest <> ""
  \/ DeprecatedName dest <> "" ->
  deprecatedFieldErrors dest <> None.
Proof.
  intros Hset. unfold deprecatedFieldErrors, nonEmpty.
  destruct (String.eqb_spec (DeprecatedAPIVersion dest) "");
    destruct (String.eqb_spec (DeprecatedKind dest) "");
    destruct (String.eqb_spec (DeprecatedName dest) "");
    try tauto; vm_compute; discriminate.
Qed.

Lemma deprecatedFieldErrors_unset dest :
  DeprecatedAPIVersion dest = "" -> DeprecatedKind dest = "" ->
  DeprecatedName dest = "" ->
  deprecatedFieldErrors dest = None.
Proof.
  intros Ha Hk Hn. unfold deprecatedFieldErrors.
  rewrite Ha, Hk, Hn. reflexivity.
Qed.

(** A reference with its three required fields and nothing else is
    valid. *)
Lemma IsValidObjectReference_ok r :
  corev1.Name r <> "" -> corev1.APIVersion r <> "" -> corev1.Kind r <> "" ->
  corev1.Namespace r = "" -> corev1.UID r = "" ->
  corev1.ResourceVersion r = "" -> corev1.FieldPath r = "" ->
  IsValidObjectReference r = None.
Proof.
  intros Hn Ha Hk Hns Hu Hrv Hfp.
  unfold IsValidObjectReference, checkRequiredObjectReferenceFields,
    checkDisallowedObjectReferenceFields, reflectFields.
  rewrite (eqb_empty_false _ Hn), (eqb_empty_false _ Ha),
    (eqb_empty_false _ Hk).
  cbn [disallowedFieldsOf]. rewrite Hns, Hu, Hrv, Hfp. reflexivity.
Qed.

(** C6 (as amended): [ValidateDestination] returns an error when Ref and
    a deprecated field are both set, and when Ref, the deprecated fields
    and URI are all unset.  With URI unset it returns nil when Ref alone
    is set, has its Name, APIVersion and Kind and no other field set, and
    when the deprecated fields alone are set, all three, and the flag
    allows deprecated fields. *)
Theorem ValidateDestination_presence_exclusion dest (allow : bool) :
  (Ref dest <> None ->
   DeprecatedAPIVersion dest <> "" \/ DeprecatedKind dest <> ""
   \/ DeprecatedName dest <> "" ->
   ValidateDestination dest allow <> None)
  /\ (Ref dest = None ->
      DeprecatedAPIVersion dest = "" -> DeprecatedKind dest = "" ->
      DeprecatedName dest = "" -> URI dest = None ->
      ValidateDestination dest allow <> None)
  /\ (forall r,
        Ref dest = Some r ->
        DeprecatedAPIVersion dest = "" -> DeprecatedKind dest = "" ->
        DeprecatedName dest = "" -> URI dest = None ->
        corev1.Name r <> "" -> corev1.APIVersion r <> "" ->
        corev1.Kind r <> "" ->
        corev1.Namespace r = "" -> corev1.UID r = "" ->
        corev1.ResourceVersion r = "" -> corev1.FieldPath r = "" ->
        ValidateDestination dest allow = None)
  /\ (Ref dest = None ->
      DeprecatedAPIVersion dest <> "" -> DeprecatedKind dest <> "" ->
      DeprecatedName dest <> "" -> URI dest = None ->
      allow = true ->
      ValidateDestination dest allow = None).
Proof.
  split; [|split; [|split]].
  - intros Href Hset.
    pose proof (deprecatedFieldErrors_set dest Hset) as Herrs.
    pose proof (deprecatedObjectReference_set dest Hset) as Hdep.
    assert (Hv : validateRefAndURI dest <> None).
    { unfold validateRefAndURI. rewrite Hdep.
      destruct (Ref dest); [simpl; discriminate|contradiction]. }
    unfold ValidateDestination. destruct allow; simpl; [exact Hv|].
    destruct (deprecatedFieldErrors dest); [discriminate|contradiction].
  - intros Href Ha Hk Hn Huri.
    assert (Hv : validateRefAndURI dest <> None).
    { unfold validateRefAndURI.
      rewrite (deprecatedObjectReference_unset dest Ha Hk Hn), Href, Huri.
      simpl. discriminate. }
    unfold ValidateDestination. destruct allow; simpl; [exact Hv|].
    rewrite (deprecatedFieldErrors_unset dest Ha Hk Hn). exact Hv.
  - intros r Href Ha Hk Hn Huri Hrn Hra Hrk Hns Hu Hrv Hfp.
    assert (Hv : validateRefAndURI dest = None).
    { unfold validateRefAndURI.
      rewrite (deprecatedObjectReference_unset dest Ha Hk Hn), Href, Huri.
      cbn [notNil isNil andb negb].
      rewrite (IsValidObjectReference_ok r Hrn Hra Hrk Hns Hu Hrv Hfp).
      reflexivity. }
    unfold ValidateDestination. destruct allow; simpl; [exact Hv|].
    rewrite (deprecatedFieldErrors_unset dest Ha Hk Hn). exact Hv.
  - intros Href Ha Hk Hn Huri ->.
    unfold ValidateDestination; simpl. unfold validateRefAndURI.
    rewrite (deprecatedObjectReference_set dest (or_introl Ha)), Href, Huri.
    cbn [notNil isNil andb negb].
    apply IsValidObjectReference_ok; simpl; auto.
Qed.

(** C8: [GetRef] is nil on a nil receiver, is Ref when Ref is set,
    whatever the deprecated fields are, is the reference made of the three
    deprecated fields when Ref is nil and one of them is set, and is nil
    when nothing is set. *)
Theorem GetRef_precedence dest :
  GetRef None = None
  /\ (forall r, Ref dest = Some r -> GetRef (Some dest) = Some r)
  /\ (Ref dest = None ->
      DeprecatedAPIVersion dest <> "" \/ DeprecatedKind dest <> ""
      \/ DeprecatedName dest <> "" ->
      GetRef (Some dest)
      = Some {| corev1.Kind := DeprecatedKind dest;
                corev1.Namespace := "";
                corev1.Name := DeprecatedName dest;
                corev1.UID := "";
                corev1.APIVersion := DeprecatedAPIVersion dest;
                corev1.ResourceVersion := "";
                corev1.FieldPath := "" |})
  /\ (Ref dest = None ->
      DeprecatedAPIVersion dest = "" -> DeprecatedKind dest = "" ->
      DeprecatedName dest = "" ->
      GetRef (Some dest) = None).
Proof.
  split; [reflexivity|]. split; [|split].
  - intros r Href. unfold GetRef. rewrite Href. reflexivity.
  - intros Href Hset. unfold GetRef.
    rewrite Href, (deprecatedObjectReference_set dest Hset). reflexivity.
  - intros Href Ha Hk Hn. unfold GetRef.
    rewrite Href, (deprecatedObjectReference_unset dest Ha Hk Hn).
    reflexivity.
Qed.

End DestinationProperties.

(** ** ScalerSpec and SourceStatus *)

Section SourceProperties.

Import v1.

(** C9: [SetDefault] is idempotent, on a nil receiver too, and leaves each
    of Class, MinScale and MaxScale as it is when it is already set (Options
    is never touched). *)
Theorem SetDefault_idempotent (ss : option ScalerSpec) :
  SetDefault (SetDefault ss) = SetDefault ss
  /\ (ss = None -> SetDefault ss = None)
  /\ (forall s, ss = Some s ->
        exists s', SetDefault ss = Some s'
          /\ (Class s <> "" -> Class s' = Class s)
          /\ (MinScale s <> None -> MinScale s' = MinScale s)
          /\ (MaxScale s <> None -> MaxScale s' = MaxScale s)
          /\ Options s' = Options s).
Proof.
  split; [|split].
  - destruct ss as [[c mi ma o]|]; [|reflexivity].
    unfold SetDefault; simpl.
    destruct (String.eqb_spec c ""), mi, ma; subst; simpl;
      try reflexivity;
      destruct (String.eqb_spec c ""); try contradiction; reflexivity.
  - intros ->. reflexivity.
  - intros [c mi ma o] ->. unfold SetDefault; simpl.
    destruct (String.eqb_spec c ""), mi, ma; simpl;
      eexists; (split; [reflexivity|]); simpl;
      repeat split; intros; congruence.
Qed.

Lemma isHappy_test (c : apis.Condition.t) :
  String.eqb (apis.Condition.Type_ c) apis.ConditionReady
  || String.eqb (apis.Condition.Type_ c) apis.ConditionSucceeded = true
  <-> isHappy c.
Proof.
  unfold isHappy, apis.ConditionReady, apis.ConditionSucceeded.
  rewrite orb_true_iff, !String.eqb_eq. reflexivity.
Qed.

Lemma isReadyLoop_first (before after : list apis.Condition.t)
      (c : apis.Condition.t) :
  (forall c', In c' before -> ~ isHappy c') -> isHappy c ->
  isReadyLoop (before ++ c :: after) = apis.IsTrue c.
Proof.
  intros Hbefore Hc. induction before as [|c0 before IH]; simpl.
  - apply isHappy_test in Hc. rewrite Hc. reflexivity.
  - destruct (_ || _) eqn:E.
    + apply isHappy_test in E. exfalso. apply (Hbefore c0); simpl; auto.
    + apply IH. intros c' Hin. apply Hbefore. simpl. auto.
Qed.

Lemma isReadyLoop_none (conditions : list apis.Condition.t) :
  (forall c, In c conditions -> ~ isHappy c) ->
  isReadyLoop conditions = false.
Proof.
  induction conditions as [|c conditions IH]; intros Hnone; simpl.
  - reflexivity.
  - destruct (_ || _) eqn:E.
    + apply isHappy_test in E. exfalso. apply (Hnone c); simpl; auto.
    + apply IH. intros c' Hin. apply Hnone. simpl. auto.
Qed.

Lemma isReadyLoop_true (conditions : list apis.Condition.t) :
  isReadyLoop conditions = true ->
  exists before c after,
    conditions = before ++ c :: after
    /\ (forall c', In c' before -> ~ isHappy c')
    /\ isHappy c /\ apis.Condition.Status c = "True".
Proof.
  induction conditions as [|c conditions IH]; simpl; [discriminate|].
  destruct (_ || _) eqn:E.
  - intros Htrue. exists [], c, conditions.
    split; [reflexivity|]. split; [intros c' []|].
    split; [apply isHappy_test, E|].
    apply String.eqb_eq. exact Htrue.
  - intros Htrue.
    destruct (IH Htrue) as (before & c1 & after & -> & Hb & Hc & Hs).
    exists (c :: before), c1, after. split; [reflexivity|].
    split; [|auto].
    intros c' [<-|Hin]; [|auto].
    intros Hh. apply isHappy_test in Hh. congruence.
Qed.

(** C10: [IsReady] is true exactly when the conditions hold one of type
    Ready or Succeeded and the first of them in list order has status
    True; it is the status test of that first condition whatever stands
    before and after it, and false when there is no such condition. *)
Theorem IsReady_first_happy_condition (ss : SourceStatus) :
  let conditions := Status.Conditions (Status ss) in
  (IsReady ss = true <->
   exists before c after,
     conditions = before ++ c :: after
     /\ (forall c', In c' before ->
           apis.Condition.Type_ c' <> "Ready"
           /\ apis.Condition.Type_ c' <> "Succeeded")
     /\ (apis.Condition.Type_ c = "Ready"
         \/ apis.Condition.Type_ c = "Succeeded")
     /\ apis.Condition.Status c = "True")
  /\ ((forall c, In c conditions ->
         apis.Condition.Type_ c <> "Ready"
         /\ apis.Condition.Type_ c <> "Succeeded") ->
      IsReady ss = false).
Proof.
  intros conditions. unfold IsReady. fold conditions. split; [split|].
  - intros Htrue.
    destruct (isReadyLoop_true conditions Htrue)
      as (before & c & after & E & Hb & Hc & Hs).
    exists before, c, after. split; [exact E|].
    split; [|split; assumption].
    intros c' Hin.
    split; intros E'; apply (Hb c' Hin); [left|right]; exact E'.
  - intros (before & c & after & E & Hb & Hc & Hs). rewrite E.
    rewrite isReadyLoop_first.
    + unfold apis.IsTrue. rewrite Hs. reflexivity.
    + intros c' Hin [Hr|Hsu]; destruct (Hb c' Hin); contradiction.
    + exact Hc.
  - intros Hnone. apply isReadyLoop_none.
    intros c Hin [Hr|Hsu]; destruct (Hnone c Hin); contradiction.
Qed.

End SourceProperties.

(* ===================================================================== *)
(** * Further properties of the dispatch                                  *)
(* ===================================================================== *)

Lemma keepNonResourceTags_idempotent (labels : gset string)
      (tags : list tag.Tag) :
  keepNonResourceTags labels (keepNonResourceTags labels tags)
  = keepNonResourceTags labels tags.
Proof.
  induction tags as [|t tags IH]; simpl; [reflexivity|].
  destruct (sets.Has labels (tag.Key.Name (tag.Key t))) eqn:E; simpl.
  - exact IH.
  - rewrite E. simpl. f_equal. exact IH.
Qed.

Lemma keepNonResourceTags_sublist (labels : gset string)
      (tags : list tag.Tag) :
  sublist (keepNonResourceTags labels tags) tags.
Proof.
  rewrite keepNonResourceTags_filter. apply sublist_filter.
Qed.

Lemma KnativeImporterLabels_keys :
  metricskeyeventing.KnativeImporterLabels
  = {[ metricskey.LabelProject; metricskey.LabelLocation;
       metricskey.LabelClusterName; metricskey.LabelNamespaceName;
       metricskeyeventing.LabelImporterName;
       metricskeyeventing.LabelImporterKind ]}.
Proof.
  unfold metricskeyeventing.KnativeImporterLabels, sets.NewString.
  cbn [list_to_set foldr]. set_solver.
Qed.

Lemma KnativeBrokerLabels_keys :
  metricskeyeventing.KnativeBrokerLabels
  = {[ metricskey.LabelProject; metricskey.LabelLocation;
       metricskey.LabelClusterName; metricskey.LabelNamespaceName;
       metricskeyeventing.LabelBrokerName ]}.
Proof.
  unfold metricskeyeventing.KnativeBrokerLabels, sets.NewString.
  cbn [list_to_set foldr]. set_solver.
Qed.

Lemma KnativeImporter_label_keys (ki : KnativeImporter.t) :
  dom (MonitoredResource ki).2
  = {[ metricskey.LabelProject; metricskey.LabelLocation;
       metricskey.LabelClusterName; metricskey.LabelNamespaceName;
       metricskeyeventing.LabelImporterName;
       metricskeyeventing.LabelImporterKind ]}.
Proof.
  unfold MonitoredResource, KnativeImporter_MonitoredResource. cbn [snd].
  rewrite !dom_insert_L, dom_empty_L. set_solver.
Qed.

Lemma KnativeBroker_label_dom (kb : KnativeBroker.t) :
  dom (MonitoredResource kb).2 = metricskeyeventing.KnativeBrokerLabels.
Proof.
  rewrite KnativeBrokerLabels_keys.
  unfold MonitoredResource, KnativeBroker_MonitoredResource. cbn [snd].
  rewrite !dom_insert_L, dom_empty_L. set_solver.
Qed.

Section DispatchExtras.

Context `{MetricsKeyServing}.

Import monitoredresources.

Implicit Types (v : view.View) (tags : list tag.Tag) (gm : GcpMetadata).

(** X1: [GetKnativeImporterMonitoredResource] returns a resource of type
    knative_importer whose label keys are exactly the set
    [KnativeImporterLabels], that is the four label constants of package
    [metricskey] with importer_name and importer_kind, and the tags it
    returns are, in order, the input tags whose key is not a label key of
    that resource. *)
Theorem importer_function_resource_and_tags v tags gm :
  let r := GetKnativeImporterMonitoredResource v tags gm in
  (MonitoredResource r.2).1 = "knative_importer"
  /\ dom (MonitoredResource r.2).2
     = {[ metricskey.LabelProject; metricskey.LabelLocation;
          metricskey.LabelClusterName; metricskey.LabelNamespaceName;
          "importer_name"; "importer_kind" ]}
  /\ dom (MonitoredResource r.2).2 = metricskeyeventing.KnativeImporterLabels
  /\ r.1 = filter (fun t => tag.Key.Name (tag.Key t)
                              ∉ dom (MonitoredResource r.2).2) tags.
Proof.
  intros r.
  assert (Hkeys : dom (MonitoredResource r.2).2
                  = {[ metricskey.LabelProject; metricskey.LabelLocation;
                       metricskey.LabelClusterName;
                       metricskey.LabelNamespaceName;
                       "importer_name"; "importer_kind" ]})
    by exact (KnativeImporter_label_keys _).
  assert (Hdom : dom (MonitoredResource r.2).2
                 = metricskeyeventing.KnativeImporterLabels)
    by (rewrite KnativeImporterLabels_keys; exact Hkeys).
  split; [reflexivity|]. split; [exact Hkeys|]. split; [exact Hdom|].
  rewrite Hdom. subst r. apply keepNonResourceTags_filter.
Qed.

(** X2: on a broker-metric view (that the serving set does not claim), no
    tag the dispatch returns has a label key of the returned resource as its
    key: the label keys of the broker resource are exactly
    [KnativeBrokerLabels], and the returned tags are the input tags whose key
    is not among them. *)
Theorem broker_view_no_duplicate_labels prefix gm v tags :
  sets.Has KnativeRevisionMetrics (joinedMetricType prefix v) = false ->
  sets.Has metricskeyeventing.KnativeBrokerMetrics
           (joinedMetricType prefix v) = true ->
  let r := getMonitoredResourceFunc prefix gm v tags in
  dom (MonitoredResource r.2).2 = metricskeyeventing.KnativeBrokerLabels
  /\ r.1 = filter (fun t => tag.Key.Name (tag.Key t)
                              ∉ dom (MonitoredResource r.2).2) tags
  /\ forall t, In t r.1 ->
       (MonitoredResource r.2).2 !! tag.Key.Name (tag.Key t) = None.
Proof.
  intros Hr Hb r. subst r.
  rewrite (dispatch_broker prefix gm v tags Hr Hb).
  assert (Hdom : dom (MonitoredResource
                        (GetKnativeBrokerMonitoredResource v tags gm).2).2
                 = metricskeyeventing.KnativeBrokerLabels).
  { exact (KnativeBroker_label_dom _). }
  assert (Hf : (GetKnativeBrokerMonitoredResource v tags gm).1
               = filter (fun t => tag.Key.Name (tag.Key t)
                            ∉ metricskeyeventing.KnativeBrokerLabels) tags)
    by apply keepNonResourceTags_filter.
  split; [exact Hdom|]. rewrite Hdom. split; [exact Hf|].
  intros t Hin. apply not_elem_of_dom. rewrite Hdom.
  rewrite Hf in Hin. apply list_elem_of_In, list_elem_of_filter in Hin.
  exact (proj1 Hin).
Qed.

(** X3: in the label map of the resource
    [GetKnativeTriggerMonitoredResource] returns, the keys [LabelProject],
    [LabelLocation] and [LabelClusterName] have the values of the GCP
    metadata; each of the keys [LabelNamespaceName], trigger_name,
    broker_name, [LabelTriggerTypeFilterAttribute] and
    [LabelTriggerSourceFilterAttribute] has the value unknown when no tag
    has it as key and, when tag keys are not repeated, the value of the tag
    that has it as key. *)
Theorem trigger_label_values v tags gm :
  let labels :=
    (MonitoredResource (GetKnativeTriggerMonitoredResource v tags gm).2).2 in
  let keys := List.map (fun t => tag.Key.Name (tag.Key t)) tags in
  labels !! metricskey.LabelProject = Some (Project gm)
  /\ labels !! metricskey.LabelLocation = Some (Location gm)
  /\ labels !! metricskey.LabelClusterName = Some (Cluster gm)
  /\ forall key : string,
       In key [ metricskey.LabelNamespaceName; "trigger_name"; "broker_name";
                metricskeyeventing.LabelTriggerTypeFilterAttribute;
                metricskeyeventing.LabelTriggerSourceFilterAttribute ] ->
       (~ In key keys -> labels !! key = Some "unknown")
       /\ (List.NoDup keys ->
           forall t, In t tags -> tag.Key.Name (tag.Key t) = key ->
                     labels !! key = Some (tag.Value t)).
Proof.
  intros labels keys.
  split; [reflexivity|]. split; [reflexivity|]. split; [reflexivity|].
  intros key Hkey.
  assert (Hl : labels !! key = Some (ValueOrUnknown key (GetTagsMap tags))).
  { destruct Hkey as [<-|[<-|[<-|[<-|[<-|[]]]]]]; reflexivity. }
  rewrite Hl. split.
  - intros Habs. f_equal. apply ValueOrUnknown_absent. exact Habs.
  - intros Hnd t Hin <-. f_equal. apply ValueOrUnknown_unique; assumption.
Qed.

(** X4: in the label map of the resource
    [GetKnativeBrokerMonitoredResource] returns, the keys [LabelProject],
    [LabelLocation] and [LabelClusterName] have the values of the GCP
    metadata; the keys [LabelNamespaceName] and broker_name have the value
    unknown when no tag has the key and, when tag keys are not repeated, the
    value of the tag that has it. *)
Theorem broker_label_values v tags gm :
  let labels :=
    (MonitoredResource (GetKnativeBrokerMonitoredResource v tags gm).2).2 in
  let keys := List.map (fun t => tag.Key.Name (tag.Key t)) tags in
  labels !! metricskey.LabelProject = Some (Project gm)
  /\ labels !! metricskey.LabelLocation = Some (Location gm)
  /\ labels !! metricskey.LabelClusterName = Some (Cluster gm)
  /\ forall key : string,
       In key [ metricskey.LabelNamespaceName; "broker_name" ] ->
       (~ In key keys -> labels !! key = Some "unknown")
       /\ (List.NoDup keys ->
           forall t, In t tags -> tag.Key.Name (tag.Key t) = key ->
                     labels !! key = Some (tag.Value t)).
Proof.
  intros labels keys.
  split; [reflexivity|]. split; [reflexivity|]. split; [reflexivity|].
  intros key Hkey.
  assert (Hl : labels !! key = Some (ValueOrUnknown key (GetTagsMap tags))).
  { destruct Hkey as [<-|[<-|[]]]; reflexivity. }
  rewrite Hl. split.
  - intros Habs. f_equal. apply ValueOrUnknown_absent. exact Habs.
  - intros Hnd t Hin <-. f_equal. apply ValueOrUnknown_unique; assumption.
Qed.

(** X5: whatever the view, the function returned by
    [getMonitoredResourceFunc] never adds, changes or reorders tags: the
    tags it returns are a sublist of the tags it is given. *)
Theorem dispatch_tags_sublist prefix gm v tags :
  sublist (getMonitoredResourceFunc prefix gm v tags).1 tags.
Proof.
  unfold getMonitoredResourceFunc; cbv zeta.
  repeat match goal with
         | |- context [sets.Has ?s ?m] => destruct (sets.Has s m)
         end;
    try apply keepNonResourceTags_sublist.
  reflexivity.
Qed.

(** X6: running the function returned by [getMonitoredResourceFunc] again on
    the tags it returned, for the same view, returns those tags unchanged. *)
Theorem dispatch_tags_idempotent prefix gm v tags :
  (getMonitoredResourceFunc prefix gm v
     (getMonitoredResourceFunc prefix gm v tags).1).1
  = (getMonitoredResourceFunc prefix gm v tags).1.
Proof.
  unfold getMonitoredResourceFunc; cbv zeta.
  repeat match goal with
         | |- context [sets.Has ?s ?m] => destruct (sets.Has s m)
         end;
    try apply keepNonResourceTags_idempotent.
  reflexivity.
Qed.

(** X7: [getMetricTypeFunc] and [getMonitoredResourceFunc] agree on what is
    supported: either the joined metric type is in one of the four sets, the
    metric type is the joined one and the resource is not the Global one, or
    it is in none, the metric type is the custom prefix joined with the
    measure name and the resource is the Global one with the tags
    unchanged. *)
Theorem metric_type_agrees_with_resource prefix customPrefix gm v tags :
  let m := joinedMetricType prefix v in
  let supported :=
    sets.Has KnativeRevisionMetrics m
    || sets.Has metricskeyeventing.KnativeBrokerMetrics m
    || sets.Has metricskeyeventing.KnativeTriggerMetrics m
    || sets.Has metricskeyeventing.KnativeImporterMetrics m in
  (supported = true
   /\ getMetricTypeFunc prefix customPrefix v = m
   /\ (getMonitoredResourceFunc prefix gm v tags).2 <> OfGlobal mkGlobal)
  \/ (supported = false
      /\ getMetricTypeFunc prefix customPrefix v
         = path.Join [customPrefix; view.Measure.Name (view.Measure v)]
      /\ getMonitoredResourceFunc prefix gm v tags
         = (tags, OfGlobal mkGlobal)).
Proof.
  intros m supported. subst supported.
  unfold getMetricTypeFunc, getMonitoredResourceFunc; cbv zeta. fold m.
  destruct (sets.Has KnativeRevisionMetrics m);
    destruct (sets.Has metricskeyeventing.KnativeBrokerMetrics m);
    destruct (sets.Has metricskeyeventing.KnativeTriggerMetrics m);
    destruct (sets.Has metricskeyeventing.KnativeImporterMetrics m);
    cbn [orb];
    first [ right; repeat split; reflexivity
          | left; repeat split; discriminate ].
Qed.

Lemma KnativeRevision_metadata_labels (kr : KnativeRevision.t) :
  (MonitoredResource kr).2 !! metricskey.LabelProject
  = Some (KnativeRevision.Project kr)
  /\ (MonitoredResource kr).2 !! metricskey.LabelLocation
     = Some (KnativeRevision.Location kr)
  /\ (MonitoredResource kr).2 !! metricskey.LabelClusterName
     = Some (KnativeRevision.ClusterName kr).
Proof.
  unfold MonitoredResource, KnativeRevision_MonitoredResource.
  cbn [snd]. split; [|split].
  - apply lookup_insert_eq.
  - rewrite lookup_insert_ne by discriminate. apply lookup_insert_eq.
  - rewrite !lookup_insert_ne by discriminate. apply lookup_insert_eq.
Qed.

(** X16: whenever the joined metric type is in one of the four sets, the
    label map of the resource the dispatch returns has the three values of
    the GCP metadata under the keys [LabelProject], [LabelLocation] and
    [LabelClusterName]; when it is in none, the label map is empty. *)
Theorem supported_view_carries_metadata prefix gm v tags :
  let m := joinedMetricType prefix v in
  let labels :=
    (MonitoredResource (getMonitoredResourceFunc prefix gm v tags).2).2 in
  (sets.Has KnativeRevisionMetrics m
   || sets.Has metricskeyeventing.KnativeBrokerMetrics m
   || sets.Has metricskeyeventing.KnativeTriggerMetrics m
   || sets.Has metricskeyeventing.KnativeImporterMetrics m = true ->
   labels !! metricskey.LabelProject = Some (Project gm)
   /\ labels !! metricskey.LabelLocation = Some (Location gm)
   /\ labels !! metricskey.LabelClusterName = Some (Cluster gm))
  /\ (sets.Has KnativeRevisionMetrics m
      || sets.Has metricskeyeventing.KnativeBrokerMetrics m
      || sets.Has metricskeyeventing.KnativeTriggerMetrics m
      || sets.Has metricskeyeventing.KnativeImporterMetrics m = false ->
      labels = ∅).
Proof.
  intros m labels. subst labels.
  unfold getMonitoredResourceFunc; cbv zeta. fold m.
  destruct (sets.Has KnativeRevisionMetrics m).
  { split; [intros _|discriminate].
    exact (KnativeRevision_metadata_labels _). }
  destruct (sets.Has metricskeyeventing.KnativeBrokerMetrics m).
  { split; [intros _; repeat split|discriminate]. }
  destruct (sets.Has metricskeyeventing.KnativeTriggerMetrics m).
  { split; [intros _; repeat split|discriminate]. }
  destruct (sets.Has metricskeyeventing.KnativeImporterMetrics m).
  { split; [intros _; repeat split|discriminate]. }
  split; [discriminate|reflexivity].
Qed.

End DispatchExtras.

(* ===================================================================== *)
(** * Further properties of the validation                                *)
(* ===================================================================== *)

Section FieldErrors.

Import apis.

Lemma isEmpty_appended (m : string) (p : list string) (d : string)
      (es : list FieldError) (e : FieldError) :
  isEmpty (Some (mkFieldError m p d (es ++ [e]))) = false.
Proof.
  unfold isEmpty. rewrite length_app. simpl.
  replace (length es + 1 =? 0)%nat with false
    by (symmetry; apply Nat.eqb_neq; lia).
  rewrite andb_false_r. reflexivity.
Qed.

(** [Also] is nil exactly when neither error carries anything. *)
Lemma Also_None (fe e : option FieldError) :
  Also fe e = None <-> isEmpty fe = true /\ isEmpty e = true.
Proof.
  unfold Also.
  destruct fe as [f|].
  - destruct (isEmpty (Some f)) eqn:Ef.
    + destruct e as [e'|].
      * destruct (isEmpty (Some e')) eqn:Ee.
        -- simpl. split; [auto|reflexivity].
        -- cbn [Message Paths Details errors app].
           change (isEmpty (Some (mkFieldError "" [] "" [e'])))
             with false. cbn iota. split; [discriminate|intros [_ ?]; discriminate].
      * simpl. split; [auto|reflexivity].
    + destruct e as [e'|].
      * destruct (isEmpty (Some e')) eqn:Ee.
        -- rewrite Ef. split; [discriminate|intros [? _]; discriminate].
        -- destruct f as [m p d es]. cbn [Message Paths Details errors].
           rewrite isEmpty_appended.
           split; [discriminate|intros [? _]; discriminate].
      * rewrite Ef. split; [discriminate|intros [? _]; discriminate].
  - destruct e as [e'|].
    + destruct (isEmpty (Some e')) eqn:Ee.
      * simpl. split; [auto|reflexivity].
      * cbn [Message Paths Details errors app].
        change (isEmpty (Some (mkFieldError "" [] "" [e']))) with false.
        cbn iota. split; [discriminate|intros [_ ?]; discriminate].
    + simpl. split; [auto|reflexivity].
Qed.

End FieldErrors.

Section DestinationExtras.

Import v1alpha1.

Implicit Types (dest : Destination) (r : corev1.ObjectReference).

Lemma checkRequired_isEmpty r :
  apis.isEmpty (checkRequiredObjectReferenceFields r) = true
  <-> corev1.Name r <> "" /\ corev1.APIVersion r <> ""
      /\ corev1.Kind r <> "".
Proof.
  unfold checkRequiredObjectReferenceFields.
  destruct (String.eqb_spec (corev1.Name r) "") as [En|En];
    destruct (String.eqb_spec (corev1.APIVersion r) "") as [Ea|Ea];
    destruct (String.eqb_spec (corev1.Kind r) "") as [Ek|Ek];
    (split; [intros Hc; vm_compute in Hc; try discriminate; tauto
            |intros (Hn & Ha & Hk); try contradiction; reflexivity]).
Qed.

(** The names of the fields, besides the three required ones, that are
    set. *)
Lemma disallowedFieldsOf_reflectFields r :
  disallowedFieldsOf (reflectFields r)
  = (if nonEmpty (corev1.Namespace r) then ["Namespace"] else [])
    ++ (if nonEmpty (corev1.UID r) then ["UID"] else [])
    ++ (if nonEmpty (corev1.ResourceVersion r) then ["ResourceVersion"]
        else [])
    ++ (if nonEmpty (corev1.FieldPath r) then ["FieldPath"] else []).
Proof.
  unfold reflectFields, nonEmpty. cbn [disallowedFieldsOf String.eqb Ascii.eqb
    Bool.eqb orb].
  destruct (String.eqb (corev1.Namespace r) "");
    destruct (String.eqb (corev1.UID r) "");
    destruct (String.eqb (corev1.ResourceVersion r) "");
    destruct (String.eqb (corev1.FieldPath r) ""); reflexivity.
Qed.

Lemma checkDisallowed_isEmpty r :
  apis.isEmpty (checkDisallowedObjectReferenceFields r) = true
  <-> corev1.Namespace r = "" /\ corev1.UID r = ""
      /\ corev1.ResourceVersion r = "" /\ corev1.FieldPath r = "".
Proof.
  unfold checkDisallowedObjectReferenceFields.
  rewrite disallowedFieldsOf_reflectFields. unfold nonEmpty.
  destruct (String.eqb_spec (corev1.Namespace r) "") as [En|En];
    destruct (String.eqb_spec (corev1.UID r) "") as [Eu|Eu];
    destruct (String.eqb_spec (corev1.ResourceVersion r) "") as [Er|Er];
    destruct (String.eqb_spec (corev1.FieldPath r) "") as [Ef|Ef];
    (split; [intros Hc; vm_compute in Hc; try discriminate; tauto
            |intros (H1 & H2 & H3 & H4); try contradiction; reflexivity]).
Qed.

Lemma IsValidObjectReference_None r :
  IsValidObjectReference r = None
  <-> (corev1.Name r <> "" /\ corev1.APIVersion r <> ""
       /\ corev1.Kind r <> "")
      /\ (corev1.Namespace r = "" /\ corev1.UID r = ""
          /\ corev1.ResourceVersion r = "" /\ corev1.FieldPath r = "").
Proof.
  unfold IsValidObjectReference.
  rewrite Also_None, checkRequired_isEmpty, checkDisallowed_isEmpty.
  reflexivity.
Qed.

(** X8: [IsValidObjectReference] returns nil exactly for a reference with
    Name, APIVersion and Kind all non-empty and Namespace, UID,
    ResourceVersion and FieldPath all empty. *)
Theorem IsValidObjectReference_nil_iff r :
  IsValidObjectReference r = None
  <-> (corev1.Name r <> "" /\ corev1.APIVersion r <> ""
       /\ corev1.Kind r <> "")
      /\ (corev1.Namespace r = "" /\ corev1.UID r = ""
          /\ corev1.ResourceVersion r = "" /\ corev1.FieldPath r = "").
Proof.
  unfold IsValidObjectReference.
  rewrite Also_None, checkRequired_isEmpty, checkDisallowed_isEmpty.
  reflexivity.
Qed.

(** X9: [checkDisallowedObjectReferenceFields] never reports Name, Kind or
    APIVersion.  It returns nil when none of Namespace, UID, ResourceVersion
    and FieldPath is set, and otherwise one error whose paths are the names
    of those of the four that are set, in the order the struct declares
    them, with the details the code assigns. *)
Theorem checkDisallowed_reports_set_fields r :
  let set_fields :=
    (if nonEmpty (corev1.Namespace r) then ["Namespace"] else [])
    ++ (if nonEmpty (corev1.UID r) then ["UID"] else [])
    ++ (if nonEmpty (corev1.ResourceVersion r) then ["ResourceVersion"]
        else [])
    ++ (if nonEmpty (corev1.FieldPath r) then ["FieldPath"] else []) in
  checkDisallowedObjectReferenceFields r
  = match set_fields with
    | [] => None
    | _ :: _ =>
        Some (apis.mkFieldError
                "must not set the field(s)" set_fields
                "only name, apiVersion and kind are supported fields" [])
    end.
Proof.
  intros set_fields. unfold checkDisallowedObjectReferenceFields.
  rewrite disallowedFieldsOf_reflectFields. fold set_fields.
  destruct set_fields; reflexivity.
Qed.

Lemma ValidateDestination_no_deprecated dest (allow : bool) :
  DeprecatedAPIVersion dest = "" -> DeprecatedKind dest = "" ->
  DeprecatedName dest = "" ->
  ValidateDestination dest allow = validateRefAndURI dest.
Proof.
  intros Ha Hk Hn. unfold ValidateDestination.
  destruct allow; simpl; [reflexivity|].
  rewrite (deprecatedFieldErrors_unset dest Ha Hk Hn). reflexivity.
Qed.

Lemma ValidateDestination_None_validate dest (allow : bool) :
  ValidateDestination dest allow = None -> validateRefAndURI dest = None.
Proof.
  unfold ValidateDestination. destruct allow; simpl; [auto|].
  destruct (deprecatedFieldErrors dest); simpl; [discriminate|auto].
Qed.

(** X10: a destination with only a URI (Ref nil, no deprecated field) is
    valid exactly when the URI has a non-empty scheme and a non-empty
    host. *)
Theorem ValidateDestination_uri_only dest (allow : bool) (u : apis.URL) :
  Ref dest = None ->
  DeprecatedAPIVersion dest = "" -> DeprecatedKind dest = "" ->
  DeprecatedName dest = "" ->
  URI dest = Some u ->
  (ValidateDestination dest allow = None
   <-> apis.Scheme u <> "" /\ apis.Host u <> "").
Proof.
  intros Href Ha Hk Hn Huri.
  rewrite (ValidateDestination_no_deprecated dest allow Ha Hk Hn).
  unfold validateRefAndURI.
  rewrite (deprecatedObjectReference_unset dest Ha Hk Hn), Href, Huri.
  unfold apis.IsAbs. cbn [notNil isNil andb negb].
  destruct (String.eqb_spec (apis.Scheme u) "") as [Es|Es];
    destruct (String.eqb_spec (apis.Host u) "") as [Eh|Eh];
    cbn [negb orb andb];
    (split; [intros Hc; try discriminate; tauto
            |intros [H1 H2]; try contradiction; reflexivity]).
Qed.

(** X11: a destination with a Ref (no deprecated field) and a URI is valid
    exactly when the URI has an empty scheme, that is when it is relative;
    the fields of the reference are not looked at. *)
Theorem ValidateDestination_ref_and_uri dest (allow : bool) r (u : apis.URL) :
  Ref dest = Some r ->
  DeprecatedAPIVersion dest = "" -> DeprecatedKind dest = "" ->
  DeprecatedName dest = "" ->
  URI dest = Some u ->
  (ValidateDestination dest allow = None <-> apis.Scheme u = "").
Proof.
  intros Href Ha Hk Hn Huri.
  rewrite (ValidateDestination_no_deprecated dest allow Ha Hk Hn).
  unfold validateRefAndURI.
  rewrite (deprecatedObjectReference_unset dest Ha Hk Hn), Href, Huri.
  unfold apis.IsAbs. cbn [notNil isNil andb negb].
  destruct (String.eqb_spec (apis.Scheme u) "") as [Es|Es];
    cbn [negb orb andb];
    (split; [intros Hc; try discriminate; tauto
            |intros H1; try contradiction; reflexivity]).
Qed.

(** X12: disallowing deprecated fields only adds errors: a destination
    valid with the flag false has no deprecated field set and is valid with
    the flag true; and for a destination with no deprecated field set the
    flag makes no difference. *)
Theorem ValidateDestination_flag dest :
  (ValidateDestination dest false = None ->
   (DeprecatedAPIVersion dest = "" /\ DeprecatedKind dest = ""
    /\ DeprecatedName dest = "")
   /\ ValidateDestination dest true = None)
  /\ (DeprecatedAPIVersion dest = "" -> DeprecatedKind dest = "" ->
      DeprecatedName dest = "" ->
      ValidateDestination dest false = ValidateDestination dest true).
Proof.
  split.
  - intros Hv. split.
    + destruct (String.eqb_spec (DeprecatedAPIVersion dest) "") as [Ea|Ea];
        destruct (String.eqb_spec (DeprecatedKind dest) "") as [Ek|Ek];
        destruct (String.eqb_spec (DeprecatedName dest) "") as [En|En];
        try tauto; exfalso;
        (assert (Hset : DeprecatedAPIVersion dest <> ""
                        \/ DeprecatedKind dest <> ""
                        \/ DeprecatedName dest <> "") by tauto);
        pose proof (deprecatedFieldErrors_set dest Hset) as Herr;
        unfold ValidateDestination in Hv; simpl in Hv;
        destruct (deprecatedFieldErrors dest); simpl in Hv;
        congruence.
    + apply (ValidateDestination_None_validate dest false Hv).
  - intros Ha Hk Hn.
    rewrite !(ValidateDestination_no_deprecated dest _ Ha Hk Hn).
    reflexivity.
Qed.

(** X13: a valid destination without URI has a reference: [GetRef] is not
    nil, and the reference it returns has Name, APIVersion and Kind set and
    no other field set. *)
Theorem valid_destination_has_ref dest (allow : bool) :
  ValidateDestination dest allow = None ->
  URI dest = None ->
  exists r,
    GetRef (Some dest) = Some r
    /\ IsValidObjectReference r = None
    /\ corev1.Name r <> "" /\ corev1.APIVersion r <> ""
    /\ corev1.Kind r <> "" /\ corev1.Namespace r = "".
Proof.
  intros Hv Huri. apply ValidateDestination_None_validate in Hv.
  unfold validateRefAndURI in Hv. unfold GetRef.
  rewrite Huri in Hv.
  destruct (Ref dest) as [r|];
    destruct (deprecatedObjectReference dest) as [r'|];
    cbn [notNil isNil andb negb] in *; try discriminate.
  - exists r.
    assert (Hr : IsValidObjectReference r = None).
    { destruct (IsValidObjectReference r); [discriminate|reflexivity]. }
    split; [reflexivity|]. split; [exact Hr|].
    apply IsValidObjectReference_None in Hr. tauto.
  - exists r'. split; [reflexivity|]. split; [exact Hv|].
    apply IsValidObjectReference_None in Hv. tauto.
Qed.

End DestinationExtras.

Section ScalerExtras.

Import v1.

Lemma Validate_None (s : ScalerSpec) :
  Validate (Some s) = None
  <-> Class s <> ""
      /\ exists minScale maxScale : Z,
           MinScale s = Some minScale /\ MaxScale s = Some maxScale
           /\ (0 <= minScale)%Z /\ (1 <= maxScale)%Z
           /\ (minScale <= maxScale)%Z.
Proof.
  destruct s as [c mi ma o]. unfold Validate. cbn [Class MinScale MaxScale].
  destruct (String.eqb_spec c "") as [Ec|Ec];
    destruct mi as [mi|]; destruct ma as [ma|];
    try destruct (Z.ltb_spec mi 0) as [Lmi|Lmi];
    try destruct (Z.ltb_spec ma 1) as [Lma|Lma];
    try destruct (Z.ltb_spec ma mi) as [Lle|Lle];
    (split;
     [ intros Hc; vm_compute in Hc;
       first [ discriminate Hc
             | split; [exact Ec | exists mi, ma; repeat split; assumption] ]
     | intros (Hne & mi' & ma' & Hmi & Hma & Hb0 & Hb1 & Hble);
       first [ discriminate | contradiction
             | injection Hmi as <-; injection Hma as <-; lia
             | reflexivity ] ]).
Qed.

(** X14: [Validate] returns nil on a nil receiver, and on a spec exactly
    when Class is non-empty, MinScale and MaxScale are both set, MinScale is
    at least 0, MaxScale at least 1, and MaxScale is not less than
    MinScale. *)
Theorem Validate_nil_iff (s : ScalerSpec) :
  Validate None = None
  /\ (Validate (Some s) = None
      <-> Class s <> ""
          /\ exists minScale maxScale : Z,
               MinScale s = Some minScale /\ MaxScale s = Some maxScale
               /\ (0 <= minScale)%Z /\ (1 <= maxScale)%Z
               /\ (minScale <= maxScale)%Z).
Proof.
  split; [reflexivity|].
  destruct s as [c mi ma o]. unfold Validate. cbn [Class MinScale MaxScale].
  destruct (String.eqb_spec c "") as [Ec|Ec];
    destruct mi as [mi|]; destruct ma as [ma|];
    try destruct (Z.ltb_spec mi 0) as [Lmi|Lmi];
    try destruct (Z.ltb_spec ma 1) as [Lma|Lma];
    try destruct (Z.ltb_spec ma mi) as [Lle|Lle];
    (split;
     [ intros Hc; vm_compute in Hc;
       first [ discriminate Hc
             | split; [exact Ec | exists mi, ma; repeat split; assumption] ]
     | intros (Hne & mi' & ma' & Hmi & Hma & Hb0 & Hb1 & Hble);
       first [ discriminate | contradiction
             | injection Hmi as <-; injection Hma as <-; lia
             | reflexivity ] ]).
Qed.

(** X15: after [SetDefault], [Validate] returns nil exactly when the scales,
    with 0 for an unset MinScale and 1 for an unset MaxScale, satisfy
    0 <= MinScale, 1 <= MaxScale and MinScale <= MaxScale: the defaults never
    leave a field missing, but a spec that sets only a MinScale above 1 is
    invalid after defaulting. *)
Theorem Validate_after_SetDefault (s : ScalerSpec) :
  let minScale := match MinScale s with Some i => i | None => 0%Z end in
  let maxScale := match MaxScale s with Some i => i | None => 1%Z end in
  Validate (SetDefault (Some s)) = None
  <-> (0 <= minScale)%Z /\ (1 <= maxScale)%Z /\ (minScale <= maxScale)%Z.
Proof.
  intros minScale maxScale.
  destruct s as [c mi ma o]. unfold SetDefault.
  cbn [Class MinScale MaxScale Options] in *.
  set (s' := match _ with Some _ => _ | None => _ end).
  assert (Hs' : Class s' <> "" /\ MinScale s' = Some minScale
                /\ MaxScale s' = Some maxScale).
  { subst s' minScale maxScale.
    destruct (String.eqb_spec c "") as [Ec|Ec]; destruct mi, ma;
      cbn; repeat split; try discriminate; exact Ec. }
  destruct Hs' as (Hc & Hmi & Hma).
  rewrite Validate_None. split.
  - intros (_ & mi' & ma' & Hmi' & Hma' & H0 & H1 & Hle).
    rewrite Hmi in Hmi'. rewrite Hma in Hma'.
    injection Hmi' as <-. injection Hma' as <-. auto.
  - intros (H0 & H1 & Hle). split; [exact Hc|].
    exists minScale, maxScale. auto.
Qed.

End ScalerExtras.

(* ===================================================================== *)
(** * Instances of the properties on sample inputs                        *)
(* ===================================================================== *)

#[local] Existing Instance sampleServing.

Example sample_importer_eval :
  (getMonitoredResourceFunc "knative.dev/eventing/importer"
     testGcpMetadata (viewOf "event_count")
     [tagOf "namespace_name" "ns"; tagOf "importer_name" "imp"]).1
  = [tagOf "importer_name" "imp"].
Proof. vm_compute. reflexivity. Qed.

Lemma importer_view_gets_trigger_resource_witness :
  sets.Has KnativeRevisionMetrics
    (joinedMetricType "knative.dev/eventing/importer" (viewOf "event_count"))
  = false
  /\ sets.Has metricskeyeventing.KnativeImporterMetrics
       (joinedMetricType "knative.dev/eventing/importer" (viewOf "event_count"))
     = true
  /\ (MonitoredResource
        (getMonitoredResourceFunc "knative.dev/eventing/importer"
           testGcpMetadata (viewOf "event_count") sampleTags).2).1
     = "knative_trigger".
Proof.
  assert (H1 : sets.Has KnativeRevisionMetrics
                 (joinedMetricType "knative.dev/eventing/importer"
                                   (viewOf "event_count")) = false)
    by (vm_compute; reflexivity).
  assert (H2 : sets.Has metricskeyeventing.KnativeImporterMetrics
                 (joinedMetricType "knative.dev/eventing/importer"
                                   (viewOf "event_count")) = true)
    by (vm_compute; reflexivity).
  split; [exact H1|]. split; [exact H2|].
  exact (proj1 (proj2 (importer_view_gets_trigger_resource
                         "knative.dev/eventing/importer" testGcpMetadata
                         (viewOf "event_count") sampleTags H1 H2))).
Defined.



Example broker_sample_labels :
  (MonitoredResource
     (getMonitoredResourceFunc "knative.dev/eventing/broker" testGcpMetadata
        (viewOf "event_count") sampleTags).2).2
  = <[ "project_id" := "test-project" ]>
    (<[ "location" := "test-location" ]>
    (<[ "cluster_name" := "test-cluster" ]>
    (<[ "namespace_name" := "test-ns" ]>
    (<[ "broker_name" := "test-broker" ]> ∅)))).
Proof. vm_compute. reflexivity. Qed.

Example broker_sample_tags :
  (getMonitoredResourceFunc "knative.dev/eventing/broker" testGcpMetadata
     (viewOf "event_count") sampleTags).1
  = [ tagOf "trigger_filter_type" "dev.knative.sample";
      tagOf "route_name" "test-route" ].
Proof. vm_compute. reflexivity. Qed.

Lemma unsupported_view_gets_global_witness :
  getMonitoredResourceFunc "knative.dev/eventing/unsupported" testGcpMetadata
    (viewOf "event_count") sampleTags
  = (sampleTags, OfGlobal monitoredresources.mkGlobal).
Proof.
  apply (unsupported_view_gets_global
           "knative.dev/eventing/unsupported" testGcpMetadata
           (viewOf "event_count") sampleTags);
    vm_compute; reflexivity.
Defined.

Lemma revision_resource_fields_witness :
  sets.Has KnativeRevisionMetrics
    (joinedMetricType "knative.dev/serving/activator" (viewOf "request_count"))
  = true
  /\ exists kr : KnativeRevision.t,
       (getMonitoredResourceFunc "knative.dev/serving/activator"
          testGcpMetadata (viewOf "request_count") sampleTags).2
       = OfKnativeRevision kr
       /\ KnativeRevision.Project kr = "test-project".
Proof.
  assert (H1 : sets.Has KnativeRevisionMetrics
                 (joinedMetricType "knative.dev/serving/activator"
                                   (viewOf "request_count")) = true)
    by (vm_compute; reflexivity).
  split; [exact H1|].
  destruct (revision_resource_fields
              "knative.dev/serving/activator" testGcpMetadata
              (viewOf "request_count") sampleTags H1)
    as (kr & Hd & Hkr & Hp & _).
  exists kr. split; [rewrite Hd; exact Hkr|exact Hp].
Defined.

Example revision_sample_fields :
  (getMonitoredResourceFunc "knative.dev/serving/activator" testGcpMetadata
     (viewOf "request_count") sampleTags).2
  = OfKnativeRevision
      {| KnativeRevision.Project := "test-project";
         KnativeRevision.Location := "test-location";
         KnativeRevision.ClusterName := "test-cluster";
         KnativeRevision.NamespaceName := "test-ns";
         KnativeRevision.ServiceName := "unknown";
         KnativeRevision.ConfigurationName := "unknown";
         KnativeRevision.RevisionName := "unknown" |}.
Proof. vm_compute. reflexivity. Qed.

Lemma trigger_view_keeps_filter_tags_witness :
  sets.Has KnativeRevisionMetrics
    (joinedMetricType "knative.dev/eventing/trigger" (viewOf "event_count"))
  = false
  /\ sets.Has metricskeyeventing.KnativeTriggerMetrics
       (joinedMetricType "knative.dev/eventing/trigger" (viewOf "event_count"))
     = true
  /\ In (tagOf "trigger_filter_type" "dev.knative.sample") sampleTags
  /\ In (tagOf "trigger_filter_type" "dev.knative.sample")
        (getMonitoredResourceFunc "knative.dev/eventing/trigger"
           testGcpMetadata (viewOf "event_count") sampleTags).1.
Proof.
  assert (H1 : sets.Has KnativeRevisionMetrics
                 (joinedMetricType "knative.dev/eventing/trigger"
                                   (viewOf "event_count")) = false)
    by (vm_compute; reflexivity).
  assert (H2 : sets.Has metricskeyeventing.KnativeTriggerMetrics
                 (joinedMetricType "knative.dev/eventing/trigger"
                                   (viewOf "event_count")) = true)
    by (vm_compute; reflexivity).
  assert (H3 : In (tagOf "trigger_filter_type" "dev.knative.sample")
                  sampleTags)
    by (simpl; tauto).
  split; [exact H1|]. split; [exact H2|]. split; [exact H3|].
  exact (proj1 (trigger_view_keeps_filter_tags
                  "knative.dev/eventing/trigger" testGcpMetadata
                  (viewOf "event_count") sampleTags
                  (tagOf "trigger_filter_type" "dev.knative.sample")
                  H1 H2 H3 (or_introl eq_refl))).
Defined.

Example trigger_sample_eval :
  getMonitoredResourceFunc "knative.dev/eventing/trigger" testGcpMetadata
    (viewOf "event_count") sampleTags
  = ( [ tagOf "trigger_filter_type" "dev.knative.sample";
        tagOf "route_name" "test-route" ],
      OfKnativeTrigger
        {| KnativeTrigger.Project := "test-project";
           KnativeTrigger.Location := "test-location";
           KnativeTrigger.ClusterName := "test-cluster";
           KnativeTrigger.NamespaceName := "test-ns";
           KnativeTrigger.TriggerName := "unknown";
           KnativeTrigger.BrokerName := "test-broker";
           KnativeTrigger.TypeFilterAttribute := "dev.knative.sample";
           KnativeTrigger.SourceFilterAttribute := "unknown" |} ).
Proof. vm_compute. reflexivity. Qed.

Example importer_sample_eval :
  getMonitoredResourceFunc "knative.dev/eventing/importer" testGcpMetadata
    (viewOf "event_count")
    [ tagOf "namespace_name" "test-ns"; tagOf "importer_name" "test-importer";
      tagOf "importer_kind" "ApiServerSource" ]
  = ( [ tagOf "importer_name" "test-importer";
        tagOf "importer_kind" "ApiServerSource" ],
      OfKnativeTrigger
        {| KnativeTrigger.Project := "test-project";
           KnativeTrigger.Location := "test-location";
           KnativeTrigger.ClusterName := "test-cluster";
           KnativeTrigger.NamespaceName := "test-ns";
           KnativeTrigger.TriggerName := "unknown";
           KnativeTrigger.BrokerName := "unknown";
           KnativeTrigger.TypeFilterAttribute := "unknown";
           KnativeTrigger.SourceFilterAttribute := "unknown" |} ).
Proof. vm_compute. reflexivity. Qed.

Lemma dispatch_order_independent_witness :
  let m := joinedMetricType "knative.dev/eventing/trigger"
                            (viewOf "event_count") in
  KnativeRevisionMetrics
    ## metricskeyeventing.KnativeBrokerMetrics
       ∪ metricskeyeventing.KnativeTriggerMetrics
       ∪ metricskeyeventing.KnativeImporterMetrics
  /\ firstMatch (rev chainTests) GlobalBranch m
     = firstMatch chainTests GlobalBranch m
  /\ getMonitoredResourceFunc "knative.dev/eventing/trigger" testGcpMetadata
       (viewOf "event_count") sampleTags
     = runBranch (firstMatch (rev chainTests) GlobalBranch m)
                 (viewOf "event_count") sampleTags testGcpMetadata.
Proof.
  intros m.
  assert (Hdis : KnativeRevisionMetrics
                   ## metricskeyeventing.KnativeBrokerMetrics
                      ∪ metricskeyeventing.KnativeTriggerMetrics
                      ∪ metricskeyeventing.KnativeImporterMetrics).
  { apply (bool_decide_unpack _). vm_compute. exact I. }
  split; [exact Hdis|].
  exact (proj1 (proj2 (proj2
           (dispatch_order_independent
              "knative.dev/eventing/trigger" "custom.googleapis.com/knative.dev"
              testGcpMetadata (viewOf "event_count") sampleTags)))
           Hdis (rev chainTests)
           (Permutation_sym (Permutation_rev chainTests))).
Defined.

Example order_sample_branch :
  firstMatch (rev chainTests) GlobalBranch
    (joinedMetricType "knative.dev/eventing/trigger" (viewOf "event_count"))
  = TriggerBranch.
Proof. vm_compute. reflexivity. Qed.

Example metric_type_supported :
  getMetricTypeFunc "knative.dev/eventing/importer"
    "custom.googleapis.com/knative.dev/importer" (viewOf "event_count")
  = "knative.dev/eventing/importer/event_count".
Proof. vm_compute. reflexivity. Qed.

Example metric_type_custom :
  getMetricTypeFunc "knative.dev/eventing/unsupported"
    "custom.googleapis.com/knative.dev/unsupported" (viewOf "event_count")
  = "custom.googleapis.com/knative.dev/unsupported/event_count".
Proof. vm_compute. reflexivity. Qed.

(** ** Destination *)

(** C6, as stated, fails: with URI nil, exactly one of Ref and the
    deprecated fields set and the required fields of the reference present,
    [ValidateDestination] still returns an error when the reference has its
    Namespace set, and when the deprecated fields are the ones set and the
    flag disallows them. *)
Lemma ValidateDestination_required_fields_not_enough :
  (exists r,
     v1alpha1.Ref refWithNamespace = Some r
     /\ corev1.Name r <> "" /\ corev1.APIVersion r <> ""
     /\ corev1.Kind r <> "")
  /\ v1alpha1.deprecatedObjectReference refWithNamespace = None
  /\ v1alpha1.URI refWithNamespace = None
  /\ v1alpha1.ValidateDestination refWithNamespace true
     = Some (apis.mkFieldError "" [] ""
               [apis.mkFieldError "must not set the field(s)"
                  ["ref.Namespace"]
                  "only name, apiVersion and kind are supported fields" []])
  /\ v1alpha1.ValidateDestination refWithNamespace true <> None
  /\ v1alpha1.ValidateDestination refWithNamespace false <> None
  /\ v1alpha1.Ref deprecatedOnly = None
  /\ (exists r,
        v1alpha1.deprecatedObjectReference deprecatedOnly = Some r
        /\ corev1.Name r <> "" /\ corev1.APIVersion r <> ""
        /\ corev1.Kind r <> "")
  /\ v1alpha1.URI deprecatedOnly = None
  /\ v1alpha1.ValidateDestination deprecatedOnly false <> None.
Proof.
  split.
  { eexists. split; [reflexivity|]. repeat split; discriminate. }
  split; [reflexivity|]. split; [reflexivity|].
  split; [vm_compute; reflexivity|].
  split; [vm_compute; discriminate|].
  split; [vm_compute; discriminate|].
  split; [reflexivity|].
  split.
  { eexists. split; [reflexivity|]. repeat split; discriminate. }
  split; [reflexivity|].
  vm_compute. discriminate.
Qed.

Lemma ValidateDestination_presence_exclusion_witness :
  v1alpha1.ValidateDestination refAndDeprecated true <> None
  /\ v1alpha1.ValidateDestination refAndDeprecated false <> None
  /\ v1alpha1.ValidateDestination nothingSet true <> None
  /\ v1alpha1.ValidateDestination refOnly true = None
  /\ v1alpha1.ValidateDestination refOnly false = None
  /\ v1alpha1.ValidateDestination deprecatedOnly true = None.
Proof.
  split.
  { apply (proj1 (ValidateDestination_presence_exclusion refAndDeprecated true));
      [discriminate|right; left; discriminate]. }
  split.
  { apply (proj1 (ValidateDestination_presence_exclusion refAndDeprecated false));
      [discriminate|right; left; discriminate]. }
  split.
  { apply (proj1 (proj2 (ValidateDestination_presence_exclusion nothingSet true)));
      reflexivity. }
  split.
  { apply (proj1 (proj2 (proj2
             (ValidateDestination_presence_exclusion refOnly true))) sampleRef);
      try reflexivity; discriminate. }
  split.
  { apply (proj1 (proj2 (proj2
             (ValidateDestination_presence_exclusion refOnly false))) sampleRef);
      try reflexivity; discriminate. }
  apply (proj2 (proj2 (proj2
           (ValidateDestination_presence_exclusion deprecatedOnly true))));
    try reflexivity; discriminate.
Defined.

Lemma GetRef_precedence_witness :
  v1alpha1.GetRef (Some refAndDeprecated) = Some sampleRef
  /\ v1alpha1.GetRef (Some deprecatedOnly) = Some sampleRef
  /\ v1alpha1.GetRef (Some nothingSet) = None.
Proof.
  split.
  { apply (proj1 (proj2 (GetRef_precedence refAndDeprecated))). reflexivity. }
  split.
  { apply (proj1 (proj2 (proj2 (GetRef_precedence deprecatedOnly))));
      [reflexivity|left; discriminate]. }
  apply (proj2 (proj2 (proj2 (GetRef_precedence nothingSet)))); reflexivity.
Defined.

(** ** ScalerSpec and SourceStatus *)

Lemma SetDefault_idempotent_witness :
  exists s',
    v1.SetDefault (Some classOnly) = Some s'
    /\ v1.Class s' = "ksvc" /\ v1.MaxScale s' = Some 5%Z.
Proof.
  destruct (proj2 (proj2 (SetDefault_idempotent (Some classOnly)))
              classOnly eq_refl)
    as (s' & Hs' & Hc & _ & Hma & _).
  exists s'. split; [exact Hs'|]. split.
  - apply Hc. discriminate.
  - apply Hma. discriminate.
Defined.

Example SetDefault_sample :
  v1.SetDefault (Some classOnly)
  = Some {| v1.Class := "ksvc"; v1.MinScale := Some 0%Z;
            v1.MaxScale := Some 5%Z; v1.Options := ∅ |}.
Proof. reflexivity. Qed.

Lemma IsReady_first_happy_condition_witness : v1.IsReady sampleStatus = true.
Proof.
  apply (proj1 (IsReady_first_happy_condition sampleStatus)).
  exists [conditionOf "SinkProvided" "False"], (conditionOf "Ready" "True"),
    [conditionOf "Succeeded" "False"].
  split; [reflexivity|]. split.
  - intros c' [<-|[]]. split; discriminate.
  - split; [left; reflexivity|reflexivity].
Defined.

(** ** Further properties *)

Lemma sampleTags_keys_NoDup :
  List.NoDup (List.map (fun t => tag.Key.Name (tag.Key t)) sampleTags).
Proof.
  repeat (constructor; [simpl; intuition discriminate|]). constructor.
Defined.

Lemma broker_view_no_duplicate_labels_witness :
  sets.Has KnativeRevisionMetrics
    (joinedMetricType "knative.dev/eventing/broker" (viewOf "event_count"))
  = false
  /\ sets.Has metricskeyeventing.KnativeBrokerMetrics
       (joinedMetricType "knative.dev/eventing/broker" (viewOf "event_count"))
     = true
  /\ dom (MonitoredResource
            (getMonitoredResourceFunc "knative.dev/eventing/broker"
               testGcpMetadata (viewOf "event_count") sampleTags).2).2
     = metricskeyeventing.KnativeBrokerLabels.
Proof.
  assert (H1 : sets.Has KnativeRevisionMetrics
                 (joinedMetricType "knative.dev/eventing/broker"
                                   (viewOf "event_count")) = false)
    by (vm_compute; reflexivity).
  assert (H2 : sets.Has metricskeyeventing.KnativeBrokerMetrics
                 (joinedMetricType "knative.dev/eventing/broker"
                                   (viewOf "event_count")) = true)
    by (vm_compute; reflexivity).
  split; [exact H1|]. split; [exact H2|].
  exact (proj1 (broker_view_no_duplicate_labels
                  "knative.dev/eventing/broker" testGcpMetadata
                  (viewOf "event_count") sampleTags H1 H2)).
Defined.

Lemma trigger_label_values_witness :
  (MonitoredResource
     (GetKnativeTriggerMonitoredResource (viewOf "event_count") sampleTags
        testGcpMetadata).2).2 !! "trigger_filter_type"
  = Some "dev.knative.sample"
  /\ (MonitoredResource
        (GetKnativeTriggerMonitoredResource (viewOf "event_count") sampleTags
           testGcpMetadata).2).2 !! "trigger_name"
     = Some "unknown".
Proof.
  pose proof (proj2 (proj2 (proj2
    (trigger_label_values (viewOf "event_count") sampleTags testGcpMetadata))))
    as Hv.
  split.
  - apply (proj2 (Hv "trigger_filter_type" ltac:(simpl; tauto))
             sampleTags_keys_NoDup
             (tagOf "trigger_filter_type" "dev.knative.sample")).
    + simpl; tauto.
    + reflexivity.
  - apply (proj1 (Hv "trigger_name" ltac:(simpl; tauto))).
    simpl. intuition discriminate.
Defined.

Lemma broker_label_values_witness :
  (MonitoredResource
     (GetKnativeBrokerMonitoredResource (viewOf "event_count") sampleTags
        testGcpMetadata).2).2 !! "broker_name"
  = Some "test-broker".
Proof.
  apply (proj2 (proj2 (proj2 (proj2
           (broker_label_values (viewOf "event_count") sampleTags
              testGcpMetadata)))
           "broker_name" ltac:(simpl; tauto))
           sampleTags_keys_NoDup (tagOf "broker_name" "test-broker")).
  - simpl; tauto.
  - reflexivity.
Defined.

Lemma IsValidObjectReference_nil_iff_witness :
  v1alpha1.IsValidObjectReference sampleRef = None.
Proof.
  apply (proj2 (IsValidObjectReference_nil_iff sampleRef)).
  repeat split; first [discriminate | reflexivity].
Defined.

Lemma ValidateDestination_uri_only_witness :
  v1alpha1.ValidateDestination uriOnly false = None.
Proof.
  apply (proj2 (ValidateDestination_uri_only uriOnly false sampleURL
                  eq_refl eq_refl eq_refl eq_refl eq_refl)).
  split; discriminate.
Defined.

Lemma ValidateDestination_ref_and_uri_witness :
  v1alpha1.ValidateDestination namelessRefAndRelativeURI true = None.
Proof.
  eapply (proj2 (ValidateDestination_ref_and_uri namelessRefAndRelativeURI
                   true _ relativeURL
                   eq_refl eq_refl eq_refl eq_refl eq_refl)).
  reflexivity.
Defined.

Lemma ValidateDestination_flag_witness :
  v1alpha1.ValidateDestination refOnly false = None
  /\ v1alpha1.ValidateDestination refOnly true = None.
Proof.
  assert (Hf : v1alpha1.ValidateDestination refOnly false = None)
    by (vm_compute; reflexivity).
  split; [exact Hf|].
  exact (proj2 (proj1 (ValidateDestination_flag refOnly) Hf)).
Defined.

Lemma valid_destination_has_ref_witness :
  exists r,
    v1alpha1.GetRef (Some deprecatedOnly) = Some r
    /\ v1alpha1.IsValidObjectReference r = None.
Proof.
  assert (Hv : v1alpha1.ValidateDestination deprecatedOnly true = None)
    by (vm_compute; reflexivity).
  destruct (valid_destination_has_ref deprecatedOnly true Hv eq_refl)
    as (r & Hr & Hok & _).
  exists r. split; assumption.
Defined.

Lemma Validate_nil_iff_witness : v1.Validate (Some populatedScaler) = None.
Proof.
  apply (proj2 (proj2 (Validate_nil_iff populatedScaler))).
  split; [discriminate|].
  exists 0%Z, 1%Z. repeat split; lia.
Defined.

Lemma Validate_after_SetDefault_witness :
  v1.Validate (v1.SetDefault (Some emptyScaler)) = None
  /\ v1.Validate (v1.SetDefault (Some minScaleOnly)) <> None.
Proof.
  split.
  - apply (proj2 (Validate_after_SetDefault emptyScaler)). simpl. lia.
  - intros Hv. apply (proj1 (Validate_after_SetDefault minScaleOnly)) in Hv.
    simpl in Hv. lia.
Defined.

Example Validate_minScaleOnly_defaulted :
  v1.Validate (v1.SetDefault (Some minScaleOnly))
  = Some (apis.mkFieldError "" [] ""
            [apis.mkFieldError "maxScale=1 is less than minScale=3"
               ["maxScale"; "minScale"] "" []]).
Proof. vm_compute. reflexivity. Qed.

Example Validate_emptyScaler :
  v1.Validate (Some emptyScaler)
  = Some (apis.mkFieldError "" [] ""
            [apis.mkFieldError "missing field(s)" ["class"] "" [];
             apis.mkFieldError "missing field(s)" ["minScale"] "" [];
             apis.mkFieldError "missing field(s)" ["maxScale"] "" []]).
Proof. vm_compute. reflexivity. Qed.

Lemma supported_view_carries_metadata_witness :
  (MonitoredResource
     (getMonitoredResourceFunc "knative.dev/serving/activator"
        testGcpMetadata (viewOf "request_count") sampleTags).2).2
    !! "cluster_name"
  = Some "test-cluster".
Proof.
  apply (proj1 (supported_view_carries_metadata
                  "knative.dev/serving/activator" testGcpMetadata
                  (viewOf "request_count") sampleTags)).
  vm_compute. reflexivity.
Defined.
